(** * CEREBRO front end: [askCerebro] (frontend/main.js)

    A shallow embedding of the one function of the front end, the
    asynchronous form handler [askCerebro], together with the parts of
    the JavaScript run time it calls: strings as sequences of UTF-16
    code units, [String.prototype.trim], [JSON.stringify] of the request
    object, the values [JSON.parse] can produce, [ToBoolean], [ToString],
    [Array.prototype.join], the [innerText] setter and [classList].

    The function is written once, in a small monad that threads the page
    and a log of the effects that leave the page (requests, suspensions
    at [await], [console.error]); the theorems of the second half are
    about that definition.  A second copy, [askCerebro_any_page], keeps
    the eight lookups of the first lines as they are written, for pages
    that lack an element. *)

From Stdlib Require Import List NArith ZArith String Ascii Bool Lia.
Import ListNotations.

Local Open Scope N_scope.
Local Open Scope list_scope.

(* ===================================================================== *)
(** * Strings *)
(* ===================================================================== *)

(** A JavaScript string is a finite sequence of 16-bit code units. *)
Definition code_unit := N.
Definition jsstring := list code_unit.

(** String literals of the source that are plain ASCII are written with
    [lit]; the two code units of the warning sign are spelled out. *)
Definition lit (s : string) : jsstring :=
  map N_of_ascii (list_ascii_of_string s).

(** U+26A0 WARNING SIGN followed by U+FE0F VARIATION SELECTOR-16. *)
Definition warning_sign : jsstring := [0x26A0; 0xFE0F].

Definition code_unit_eqb : code_unit -> code_unit -> bool := N.eqb.

Fixpoint jsstring_eqb (s t : jsstring) : bool :=
  match s, t with
  | [], [] => true
  | c :: s', d :: t' => code_unit_eqb c d && jsstring_eqb s' t'
  | _, _ => false
  end.

(** ** [String.prototype.trim] *)

(** ECMAScript WhiteSpace: TAB, VT, FF, ZWNBSP and the code points of
    general category Zs. *)
Definition isWhiteSpace (c : code_unit) : bool :=
  (c =? 0x0009) || (c =? 0x000B) || (c =? 0x000C) || (c =? 0xFEFF) ||
  (c =? 0x0020) || (c =? 0x00A0) || (c =? 0x1680) ||
  ((0x2000 <=? c) && (c <=? 0x200A)) ||
  (c =? 0x202F) || (c =? 0x205F) || (c =? 0x3000).

(** ECMAScript LineTerminator: LF, CR, LS, PS. *)
Definition isLineTerminator (c : code_unit) : bool :=
  (c =? 0x000A) || (c =? 0x000D) || (c =? 0x2028) || (c =? 0x2029).

(** What [trim] strips from both ends. *)
Definition isTrimmed (c : code_unit) : bool :=
  isWhiteSpace c || isLineTerminator c.

Fixpoint trimStart (s : jsstring) : jsstring :=
  match s with
  | [] => []
  | c :: s' => if isTrimmed c then trimStart s' else s
  end.

Definition trimEnd (s : jsstring) : jsstring := rev (trimStart (rev s)).

Definition trim (s : jsstring) : jsstring := trimEnd (trimStart s).

(** ** [JSON.stringify] of a string *)

Definition hex_digit (n : N) : code_unit :=
  if n <? 10 then 0x30 + n else 0x61 + (n - 10).

(** UnicodeEscape: backslash, [u] and four lower-case hexadecimal
    digits. *)
Definition UnicodeEscape (c : code_unit) : jsstring :=
  [0x5C; 0x75;
   hex_digit ((c / 4096) mod 16); hex_digit ((c / 256) mod 16);
   hex_digit ((c / 16) mod 16); hex_digit (c mod 16)].

Definition isLeadingSurrogate (c : code_unit) : bool :=
  (0xD800 <=? c) && (c <=? 0xDBFF).
Definition isTrailingSurrogate (c : code_unit) : bool :=
  (0xDC00 <=? c) && (c <=? 0xDFFF).

(** One code unit that is not part of a surrogate pair. *)
Definition quote_unit (c : code_unit) : jsstring :=
  if c =? 0x08 then [0x5C; 0x62]
  else if c =? 0x09 then [0x5C; 0x74]
  else if c =? 0x0A then [0x5C; 0x6E]
  else if c =? 0x0C then [0x5C; 0x66]
  else if c =? 0x0D then [0x5C; 0x72]
  else if c =? 0x22 then [0x5C; 0x22]
  else if c =? 0x5C then [0x5C; 0x5C]
  else if (c <? 0x20) || isLeadingSurrogate c || isTrailingSurrogate c
       then UnicodeEscape c
  else [c].

(** The characters of QuoteJSONString between its two quotation marks:
    a well-formed surrogate pair is copied, anything else goes through
    [quote_unit]. *)
Fixpoint quote_units (s : jsstring) : jsstring :=
  match s with
  | [] => []
  | c :: s' =>
      match s' with
      | d :: s'' =>
          if isLeadingSurrogate c && isTrailingSurrogate d
          then c :: d :: quote_units s''
          else quote_unit c ++ quote_units s'
      | [] => quote_unit c
      end
  end.

Definition QuoteJSONString (s : jsstring) : jsstring :=
  [0x22] ++ quote_units s ++ [0x22].

(** [JSON.stringify(o)] for an object [o] whose own properties, in
    order, are the given string-valued ones: no white space is
    inserted. *)
Fixpoint stringify_members (ms : list (jsstring * jsstring)) : jsstring :=
  match ms with
  | [] => []
  | [(k, v)] => QuoteJSONString k ++ [0x3A] ++ QuoteJSONString v
  | (k, v) :: ms' =>
      QuoteJSONString k ++ [0x3A] ++ QuoteJSONString v ++ [0x2C]
        ++ stringify_members ms'
  end.

Definition JSON_stringify (ms : list (jsstring * jsstring)) : jsstring :=
  [0x7B] ++ stringify_members ms ++ [0x7D].

(* ===================================================================== *)
(** * Values *)
(* ===================================================================== *)

(** What the code can throw or be rejected with.  The texts of the
    errors the run time raises differ between engines and no statement
    below depends on them. *)
Inductive Exn : Type :=
| TypeError (message : string)
| SyntaxError (message : string)
| DOMException (name message : string).

(** A completion of a synchronous operation. *)
Inductive Completion (A : Type) : Type :=
| Normal (a : A)
| Throw (e : Exn).
Arguments Normal {A} a.
Arguments Throw {A} e.

Definition cbind {A B} (c : Completion A) (k : A -> Completion B)
  : Completion B :=
  match c with
  | Normal a => k a
  | Throw e => Throw e
  end.

(** The numbers of the run time (IEEE doubles) and the two built-ins
    whose tables are too large to write out are an interface. *)
Class Runtime : Type := {
  Num : Type;
  (** [ToBoolean] on a number: false on +0, -0 and NaN. *)
  Number_ToBoolean : Num -> bool;
  (** [Number::toString], radix 10. *)
  Number_toString : Num -> jsstring;
  (** [String.prototype.toUpperCase], the Unicode upper-case mapping. *)
  toUpperCase : jsstring -> jsstring
}.

Section Language.

Context {RT : Runtime}.

(** The values [res.json()] can resolve to, and [undefined], which a
    property read yields for a missing property.  An object is the list
    of its own properties in creation order; the keys of a parsed object
    are distinct. *)
#[warnings="-register-all"] Inductive Value : Type :=
| VUndefined
| VNull
| VBoolean (b : bool)
| VNumber (n : Num)
| VString (s : jsstring)
| VArray (elements : list Value)
| VObject (properties : list (jsstring * Value)).

Fixpoint own_property (ps : list (jsstring * Value)) (key : jsstring)
  : option Value :=
  match ps with
  | [] => None
  | (k, v) :: ps' => if jsstring_eqb k key then Some v else own_property ps' key
  end.

(** [v.key] for the six keys the source reads ([error], [response],
    [mode], [domain_used], [sources_used], [duration_secs]): none of them
    is defined on a built-in prototype, so only an own property of an
    object is found; reading from [undefined] or [null] throws. *)
Definition Get (v : Value) (key : jsstring) : Completion Value :=
  match v with
  | VUndefined | VNull =>
      Throw (TypeError "Cannot read properties of undefined or null")
  | VObject ps =>
      match own_property ps key with
      | Some x => Normal x
      | None => Normal VUndefined
      end
  | VBoolean _ | VNumber _ | VString _ | VArray _ => Normal VUndefined
  end.

Definition ToBoolean (v : Value) : bool :=
  match v with
  | VUndefined | VNull => false
  | VBoolean b => b
  | VNumber n => Number_ToBoolean n
  | VString s => negb (jsstring_eqb s [])
  | VArray _ | VObject _ => true
  end.

(** [Array.prototype.join], given the conversion of an element:
    [undefined] and [null] elements contribute the empty string. *)
Definition join_with (to_string : Value -> Completion jsstring)
    (separator : jsstring) : list Value -> Completion jsstring :=
  let element (v : Value) : Completion jsstring :=
    match v with
    | VUndefined | VNull => Normal []
    | _ => to_string v
    end in
  fix go (l : list Value) : Completion jsstring :=
    match l with
    | [] => Normal []
    | [v] => element v
    | v :: l' =>
        cbind (element v) (fun s =>
        cbind (go l') (fun r =>
        Normal (s ++ separator ++ r)))
    end.

(** [ToString].  An array converts through [join(",")].  A parsed object
    has no callable own property: with an own [toString] neither it nor
    [Object.prototype.valueOf] yields a primitive and the conversion
    throws; without one [Object.prototype.toString] answers. *)
Fixpoint ToString (v : Value) : Completion jsstring :=
  match v with
  | VUndefined => Normal (lit "undefined")
  | VNull => Normal (lit "null")
  | VBoolean true => Normal (lit "true")
  | VBoolean false => Normal (lit "false")
  | VNumber n => Normal (Number_toString n)
  | VString s => Normal s
  | VArray l => join_with ToString (lit ",") l
  | VObject ps =>
      match own_property ps (lit "toString") with
      | Some _ => Throw (TypeError "Cannot convert object to primitive value")
      | None => Normal (lit "[object Object]")
      end
  end.

(** [v.join(separator)]: only an array has a callable [join]. *)
Definition join (v : Value) (separator : jsstring) : Completion jsstring :=
  match v with
  | VArray l => join_with ToString separator l
  | VUndefined | VNull =>
      Throw (TypeError "Cannot read properties of undefined or null")
  | _ => Throw (TypeError "join is not a function")
  end.

(** [v.toUpperCase()]: only a string has a callable [toUpperCase]. *)
Definition call_toUpperCase (v : Value) : Completion jsstring :=
  match v with
  | VString s => Normal (toUpperCase s)
  | VUndefined | VNull =>
      Throw (TypeError "Cannot read properties of undefined or null")
  | _ => Throw (TypeError "toUpperCase is not a function")
  end.

(** Conversion to the [DOMString] of the [innerText] setter, which is
    declared [LegacyNullToEmptyString]. *)
Definition to_DOMString (v : Value) : Completion jsstring :=
  match v with
  | VNull => Normal []
  | _ => ToString v
  end.

End Language.

(* ===================================================================== *)
(** * The page, the network and the console *)
(* ===================================================================== *)

(** The eight elements [askCerebro] looks up by id.  The page that loads
    the script is taken to contain them all, so [getElementById] never
    answers [null]. *)
Inductive ElementId : Type :=
| el_query | el_status | el_response | el_output
| el_mode | el_domain | el_sources | el_duration.

Record Element : Type := {
  value : jsstring;             (* of the input field *)
  innerText : jsstring;         (* as last assigned *)
  classList : list jsstring     (* ordered set of class tokens *)
}.

Record Document : Type := {
  query : Element;
  status : Element;
  response : Element;
  output : Element;
  mode : Element;
  domain : Element;
  sources : Element;
  duration : Element
}.

Definition getElementById (d : Document) (id : ElementId) : Element :=
  match id with
  | el_query => query d
  | el_status => status d
  | el_response => response d
  | el_output => output d
  | el_mode => mode d
  | el_domain => domain d
  | el_sources => sources d
  | el_duration => duration d
  end.

Definition setElement (id : ElementId) (e : Element) (d : Document)
  : Document :=
  match id with
  | el_query =>
      {| query := e; status := status d; response := response d;
         output := output d; mode := mode d; domain := domain d;
         sources := sources d; duration := duration d |}
  | el_status =>
      {| query := query d; status := e; response := response d;
         output := output d; mode := mode d; domain := domain d;
         sources := sources d; duration := duration d |}
  | el_response =>
      {| query := query d; status := status d; response := e;
         output := output d; mode := mode d; domain := domain d;
         sources := sources d; duration := duration d |}
  | el_output =>
      {| query := query d; status := status d; response := response d;
         output := e; mode := mode d; domain := domain d;
         sources := sources d; duration := duration d |}
  | el_mode =>
      {| query := query d; status := status d; response := response d;
         output := output d; mode := e; domain := domain d;
         sources := sources d; duration := duration d |}
  | el_domain =>
      {| query := query d; status := status d; response := response d;
         output := output d; mode := mode d; domain := e;
         sources := sources d; duration := duration d |}
  | el_sources =>
      {| query := query d; status := status d; response := response d;
         output := output d; mode := mode d; domain := domain d;
         sources := e; duration := duration d |}
  | el_duration =>
      {| query := query d; status := status d; response := response d;
         output := output d; mode := mode d; domain := domain d;
         sources := sources d; duration := e |}
  end.

Definition with_innerText (s : jsstring) (e : Element) : Element :=
  {| value := value e; innerText := s; classList := classList e |}.

Definition with_classList (l : list jsstring) (e : Element) : Element :=
  {| value := value e; innerText := innerText e; classList := l |}.

Definition contains (l : list jsstring) (token : jsstring) : bool :=
  existsb (jsstring_eqb token) l.

(** [DOMTokenList.add]: appended unless already there. *)
Definition tokens_add (token : jsstring) (l : list jsstring)
  : list jsstring :=
  if contains l token then l else l ++ [token].

(** [DOMTokenList.remove]. *)
Definition tokens_remove (token : jsstring) (l : list jsstring)
  : list jsstring :=
  filter (fun t => negb (jsstring_eqb token t)) l.

(** The result region is hidden while [response] carries [hidden]. *)
Definition hidden (d : Document) : bool :=
  contains (classList (response d)) (lit "hidden").

(** The second argument of [fetch]. *)
Record RequestInit : Type := {
  method : jsstring;
  headers : list (jsstring * jsstring);
  body : jsstring
}.

Record Request : Type := {
  url : jsstring;
  init : RequestInit
}.

(** The state of a promise once nothing more will happen to it. *)
Inductive Promise (A : Type) : Type :=
| Pending
| Rejected (reason : Exn)
| Fulfilled (a : A).
Arguments Pending {A}.
Arguments Rejected {A} reason.
Arguments Fulfilled {A} a.

(** What leaves the page, in the order it happens.  [Suspended d] marks
    an [await]: control went back to the browser with the page as [d]. *)
Inductive Event : Type :=
| Fetched (request : Request)
| Suspended (page : Document)
| Logged (err : Exn).

Record World : Type := {
  document : Document;
  log : list Event
}.

(** ** Asynchronous computations *)

(** An [async] body: from a world to the state its promise ends in, and
    the world as it leaves it. *)
Definition Async (A : Type) : Type := World -> Promise A * World.

Definition ret {A} (a : A) : Async A := fun w => (Fulfilled a, w).

Definition throw {A} (e : Exn) : Async A := fun w => (Rejected e, w).

Definition bind {A B} (m : Async A) (k : A -> Async B) : Async B :=
  fun w =>
    match m w with
    | (Fulfilled a, w') => k a w'
    | (Rejected e, w') => (Rejected e, w')
    | (Pending, w') => (Pending, w')
    end.

Declare Scope async_scope.
Delimit Scope async_scope with async.
Notation "x <- m ;; k" := (bind m (fun x => k))
  (at level 100, m at next level, right associativity) : async_scope.
Notation "m ;; k" := (bind m (fun _ => k))
  (at level 100, right associativity) : async_scope.
Local Open Scope async_scope.

(** [try { body } catch (err) { handler }]: a body that never settles is
    not caught. *)
Definition try_catch {A} (body : Async A) (handler : Exn -> Async A)
  : Async A :=
  fun w =>
    match body w with
    | (Rejected e, w') => handler e w'
    | r => r
    end.

(** A synchronous completion inside an [async] body. *)
Definition complete {A} (c : Completion A) : Async A :=
  match c with
  | Normal a => ret a
  | Throw e => throw e
  end.

Definition emit (ev : Event) : Async unit :=
  fun w => (Fulfilled tt, {| document := document w; log := log w ++ [ev] |}).

Definition update (id : ElementId) (f : Element -> Element) : Async unit :=
  fun w =>
    (Fulfilled tt,
     {| document := setElement id (f (getElementById (document w) id))
                      (document w);
        log := log w |}).

(** [await p]: suspend, then resume with the value of [p], throw its
    reason, or never resume.  The call resumes on the page as it left
    it: this is one call by itself, with no other submission in flight
    and nothing else writing to the page meanwhile. *)
Definition await {A} (p : Promise A) : Async A :=
  fun w =>
    (p, {| document := document w;
           log := log w ++ [Suspended (document w)] |}).

(** [console.error(err)]. *)
Definition console_error (err : Exn) : Async unit := emit (Logged err).

(** [document.getElementById(id).value]. *)
Definition get_value (id : ElementId) : Async jsstring :=
  fun w => (Fulfilled (value (getElementById (document w) id)), w).

(** [document.getElementById(id).classList.add(token)] and [remove]. *)
Definition classList_add (id : ElementId) (token : jsstring) : Async unit :=
  update id (fun e => with_classList (tokens_add token (classList e)) e).

Definition classList_remove (id : ElementId) (token : jsstring)
  : Async unit :=
  update id (fun e => with_classList (tokens_remove token (classList e)) e).

(* ===================================================================== *)
(** * [askCerebro] *)
(* ===================================================================== *)

Section Handler.

Context {RT : Runtime}.

(** What [fetch] resolves to; [json] is the state [res.json()] ends in:
    the parsed body, or the failure to read or parse it. *)
Record Response : Type := {
  json : Promise Value
}.

(** The backend, and everything between it and the page: the state the
    promise of [fetch] ends in for a given request. *)
Variable backend : Request -> Promise Response.

(** [fetch(url, init)]: the request goes out, a promise comes back. *)
Definition fetch (url : jsstring) (init : RequestInit)
  : Async (Promise Response) :=
  let request := {| url := url; init := init |} in
  emit (Fetched request);;
  ret (backend request).

(** [element.innerText = v]. *)
Definition set_innerText (element : ElementId) (v : Value) : Async unit :=
  s <- complete (to_DOMString v);;
  update element (with_innerText s).

(** The template literal of line 29: the warning sign, [ Error: ] and
    [ToString(data.error)]. *)
Definition error_message (error : Value) : Async Value :=
  s <- complete (ToString error);;
  ret (VString (warning_sign ++ lit " Error: " ++ s)).

Definition askCerebro : Async unit :=
  v <- get_value el_query;;
  let query := trim v in
  let status := el_status in
  let responseBox := el_response in
  let output := el_output in
  let mode := el_mode in
  let domain := el_domain in
  let sources := el_sources in
  let duration := el_duration in
  if negb (ToBoolean (VString query)) then
    set_innerText status (VString (lit "Please enter a query."))
  else
    set_innerText status (VString (lit "Thinking..."));;
    classList_add responseBox (lit "hidden");;
    try_catch
      (promise <- fetch (lit "http://localhost:5000/ask")
                    {| method := lit "POST";
                       headers := [(lit "Content-Type",
                                    lit "application/json")];
                       body := JSON_stringify [(lit "query", query)] |};;
       res <- await promise;;
       data <- await (json res);;
       data_error <- complete (Get data (lit "error"));;
       if ToBoolean data_error then
         message <- error_message data_error;;
         set_innerText status message
       else
         data_response <- complete (Get data (lit "response"));;
         set_innerText output data_response;;
         data_mode <- complete (Get data (lit "mode"));;
         upper <- complete (call_toUpperCase data_mode);;
         set_innerText mode (VString upper);;
         data_domain_used <- complete (Get data (lit "domain_used"));;
         set_innerText domain data_domain_used;;
         data_sources_used <- complete (Get data (lit "sources_used"));;
         joined <- complete (join data_sources_used (lit ", "));;
         set_innerText sources (VString joined);;
         data_duration_secs <- complete (Get data (lit "duration_secs"));;
         set_innerText duration data_duration_secs;;
         classList_remove responseBox (lit "hidden");;
         set_innerText status (VString []))
      (fun err =>
         set_innerText status
           (VString (warning_sign
                       ++ lit " Failed to connect to Cerebro backend."));;
         console_error err).

End Handler.

(* ===================================================================== *)
(** * [askCerebro] on a page that may lack elements *)
(* ===================================================================== *)

Section AnyPage.

Context {RT : Runtime}.
Variable backend : Request -> Promise Response.

(** The ids for which the page has no element. *)
Variable absent : ElementId -> bool.

(** [document.getElementById(id)]: the element, or [null]. *)
Definition lookup (id : ElementId) : option ElementId :=
  if absent id then None else Some id.

(** A property access on what [getElementById] answered: on [null] it
    throws. *)
Definition on_element {A} (element : option ElementId)
    (access : ElementId -> Async A) : Async A :=
  match element with
  | Some id => access id
  | None => throw (TypeError "Cannot read or set properties of null")
  end.

(** [element.innerText = v], the right-hand side [v] already
    evaluated. *)
Definition assign_innerText (element : option ElementId) (v : Value)
  : Async unit :=
  on_element element (fun id => set_innerText id v).

(** [askCerebro] with the eight lookups of lines 2 to 9 as they are
    written: each may answer [null], and nothing is done about it until
    the element is used. *)
Definition askCerebro_any_page : Async unit :=
  v <- on_element (lookup el_query) get_value;;
  let query := trim v in
  let status := lookup el_status in
  let responseBox := lookup el_response in
  let output := lookup el_output in
  let mode := lookup el_mode in
  let domain := lookup el_domain in
  let sources := lookup el_sources in
  let duration := lookup el_duration in
  if negb (ToBoolean (VString query)) then
    assign_innerText status (VString (lit "Please enter a query."))
  else
    assign_innerText status (VString (lit "Thinking..."));;
    on_element responseBox (fun id => classList_add id (lit "hidden"));;
    try_catch
      (promise <- fetch backend (lit "http://localhost:5000/ask")
                    {| method := lit "POST";
                       headers := [(lit "Content-Type",
                                    lit "application/json")];
                       body := JSON_stringify [(lit "query", query)] |};;
       res <- await promise;;
       data <- await (json res);;
       data_error <- complete (Get data (lit "error"));;
       if ToBoolean data_error then
         message <- error_message data_error;;
         assign_innerText status message
       else
         data_response <- complete (Get data (lit "response"));;
         assign_innerText output data_response;;
         data_mode <- complete (Get data (lit "mode"));;
         upper <- complete (call_toUpperCase data_mode);;
         assign_innerText mode (VString upper);;
         data_domain_used <- complete (Get data (lit "domain_used"));;
         assign_innerText domain data_domain_used;;
         data_sources_used <- complete (Get data (lit "sources_used"));;
         joined <- complete (join data_sources_used (lit ", "));;
         assign_innerText sources (VString joined);;
         data_duration_secs <- complete (Get data (lit "duration_secs"));;
         assign_innerText duration data_duration_secs;;
         on_element responseBox
           (fun id => classList_remove id (lit "hidden"));;
         assign_innerText status (VString []))
      (fun err =>
         assign_innerText status
           (VString (warning_sign
                       ++ lit " Failed to connect to Cerebro backend."));;
         console_error err).

End AnyPage.

(* ===================================================================== *)
(** * The vocabulary of the statements *)
(* ===================================================================== *)

(** The trimmed text is the input without a leading and a trailing run
    of stripped code units, and neither starts nor ends with one. *)
Definition stripped (s t : jsstring) : Prop :=
  (exists pre post,
      s = pre ++ t ++ post /\
      forallb isTrimmed pre = true /\ forallb isTrimmed post = true) /\
  (forall c t', t = c :: t' -> isTrimmed c = false) /\
  (forall c t', t = t' ++ [c] -> isTrimmed c = false).

(** The requests among the events of a log. *)
Fixpoint requests (l : list Event) : list Request :=
  match l with
  | [] => []
  | Fetched r :: l' => r :: requests l'
  | _ :: l' => requests l'
  end.

(** The request [askCerebro] builds for a query text. *)
Definition the_request (text : jsstring) : Request :=
  {| url := lit "http://localhost:5000/ask";
     init := {| method := lit "POST";
                headers := [(lit "Content-Type", lit "application/json")];
                body := JSON_stringify [(lit "query", text)] |} |}.

(** Page updates, as functions on documents. *)
Definition write (id : ElementId) (text : jsstring) (d : Document)
  : Document :=
  setElement id (with_innerText text (getElementById d id)) d.

Definition say (message : jsstring) (d : Document) : Document :=
  write el_status message d.

Definition hide (d : Document) : Document :=
  setElement el_response
    (with_classList (tokens_add (lit "hidden") (classList (response d)))
       (response d)) d.

Definition reveal (d : Document) : Document :=
  setElement el_response
    (with_classList (tokens_remove (lit "hidden") (classList (response d)))
       (response d)) d.

(** The page while a request is in flight. *)
Definition thinking (d : Document) : Document :=
  hide (say (lit "Thinking...") d).

Definition connection_failed : jsstring :=
  warning_sign ++ lit " Failed to connect to Cerebro backend.".

(** The five elements of the result region that carry the answer. *)
Definition result_fields : list ElementId :=
  [el_output; el_mode; el_domain; el_sources; el_duration].

(** The strings of [l], with [separator] between neighbours. *)
Fixpoint joined (separator : jsstring) (l : list jsstring) : jsstring :=
  match l with
  | [] => []
  | [s] => s
  | s :: l' => s ++ separator ++ joined separator l'
  end.

(** The call to [fetch] is rejected, or it resolves and reading the body
    as JSON is rejected. *)
Definition transport_failure {RT : Runtime}
    (backend : Request -> Promise Response) (request : Request) (e : Exn)
  : Prop :=
  backend request = Rejected e \/
  exists res, backend request = Fulfilled res /\ json res = Rejected e.

(** A field of the response that may be missing: what reading it
    gives, and the text the page shows for it. *)
Definition or_undefined {RT : Runtime} (o : option Value) : Value :=
  match o with
  | Some v => v
  | None => VUndefined
  end.

Definition text_or_undefined (o : option jsstring) : jsstring :=
  match o with
  | Some s => s
  | None => lit "undefined"
  end.

(** The errors written to the console, among the events of a log. *)
Fixpoint logged (l : list Event) : list Exn :=
  match l with
  | [] => []
  | Logged e :: l' => e :: logged l'
  | _ :: l' => logged l'
  end.

(** The request never settles, or the reading of its body never does. *)
Definition hangs {RT : Runtime} (backend : Request -> Promise Response)
    (request : Request) : Prop :=
  backend request = Pending \/
  exists res, backend request = Fulfilled res /\ json res = Pending.

(** What the five elements show when the render pass goes through for
    the body [data]. *)
Definition renders {RT : Runtime} (data : Value)
    (rs u ds js dus : jsstring) : Prop :=
  exists r m dm sv dv,
    Get data (lit "response") = Normal r /\ to_DOMString r = Normal rs /\
    Get data (lit "mode") = Normal m /\ call_toUpperCase m = Normal u /\
    Get data (lit "domain_used") = Normal dm /\
    to_DOMString dm = Normal ds /\
    Get data (lit "sources_used") = Normal sv /\
    join sv (lit ", ") = Normal js /\
    Get data (lit "duration_secs") = Normal dv /\
    to_DOMString dv = Normal dus.

(** A body that is valid JSON, not [null] and not an object. *)
Definition not_an_object {RT : Runtime} (data : Value) : bool :=
  match data with
  | VBoolean _ | VNumber _ | VString _ | VArray _ => true
  | _ => false
  end.

(** Reading a quoted string back: the value of a hexadecimal digit, the
    code unit a two-character escape stands for, and the inverse of
    [quote_units]. *)
Definition hex_value (c : code_unit) : N :=
  if c <? 0x3A then c - 0x30 else c - 0x61 + 10.

Definition unescape (c : code_unit) : code_unit :=
  if c =? 0x62 then 0x08
  else if c =? 0x74 then 0x09
  else if c =? 0x6E then 0x0A
  else if c =? 0x66 then 0x0C
  else if c =? 0x72 then 0x0D
  else c.

Fixpoint unquote_units (s : jsstring) : jsstring :=
  match s with
  | [] => []
  | c :: s' =>
      if c =? 0x5C then
        match s' with
        | [] => []
        | e :: s'' =>
            if e =? 0x75 then
              match s'' with
              | h3 :: h2 :: h1 :: h0 :: rest =>
                  (4096 * hex_value h3 + 256 * hex_value h2
                   + 16 * hex_value h1 + hex_value h0)
                    :: unquote_units rest
              | _ => []
              end
            else unescape e :: unquote_units s''
        end
      else c :: unquote_units s'
  end.

(* ===================================================================== *)
(** * A run time to compute with *)
(* ===================================================================== *)

(** Upper-casing of the ASCII letters; other code units are kept, which
    is what the Unicode mapping does on ASCII text. *)
Definition ascii_toUpperCase (s : jsstring) : jsstring :=
  map (fun c => if (0x61 <=? c) && (c <=? 0x7A) then c - 0x20 else c) s.

(** A number is kept as the text [Number::toString] gives for it. *)
#[export] Instance text_runtime : Runtime := {|
  Num := jsstring;
  Number_ToBoolean n :=
    negb (jsstring_eqb n (lit "0") || jsstring_eqb n (lit "NaN"));
  Number_toString n := n;
  toUpperCase := ascii_toUpperCase
|}.

Definition blank : Element :=
  {| value := []; innerText := []; classList := [] |}.

(** A page as it loads: nothing typed, nothing shown, the result region
    hidden. *)
Definition fresh_page : Document :=
  {| query := blank; status := blank;
     response := with_classList [lit "hidden"] blank;
     output := blank; mode := blank; domain := blank; sources := blank;
     duration := blank |}.

Definition typed (text : jsstring) (d : Document) : Document :=
  setElement el_query
    {| value := text; innerText := innerText (query d);
       classList := classList (query d) |} d.

Definition start (d : Document) : World := {| document := d; log := [] |}.

(** A backend that answers every request with the body [data]. *)
Definition answers {RT : Runtime} (data : Value)
  : Request -> Promise Response :=
  fun _ => Fulfilled {| json := Fulfilled data |}.

(** The page after the user has typed a question, blanks around it. *)
Definition submitted : World :=
  start (typed (lit " what is rust? ") fresh_page).

(** The page with only blanks typed, after an answer has been shown. *)
Definition blank_after_answer : World :=
  start (typed (lit "  " ++ [0x09; 0x0A; 0x00A0])
           (reveal (write el_output (lit "42") fresh_page))).

(** A backend that cannot be reached, and one whose body does not
    parse. *)
Definition refuses (e : Exn) : Request -> Promise Response :=
  fun _ => Rejected e.

Definition garbles (e : Exn) : Request -> Promise Response :=
  fun _ => Fulfilled {| json := Rejected e |}.

(** The successful response of the specification's example. *)
Definition answer_fields : list (jsstring * Value) :=
  [(lit "response", VString (lit "42"));
   (lit "domain_used", VString (lit "math"));
   (lit "sources_used", VArray [VString (lit "a"); VString (lit "b")]);
   (lit "duration_secs", VNumber (lit "0.12" : Num))].

Definition answer : Value :=
  VObject ((lit "mode", VString (lit "fast")) :: answer_fields).

(** The same with an [error] that is the empty string. *)
Definition answer_with_empty_error : Value :=
  VObject ((lit "error", VString []) ::
           (lit "mode", VString (lit "fast")) :: answer_fields).

(** The same without [mode]. *)
Definition answer_without_mode : Value := VObject answer_fields.

(** A response that has [mode] and [sources_used] only. *)
Definition answer_with_mode_and_sources_only : Value :=
  VObject [(lit "mode", VString (lit "fast"));
           (lit "sources_used",
            VArray [VString (lit "a"); VString (lit "b")])].

(** The failure response of the specification's example. *)
Definition bad_domain : Value :=
  VObject [(lit "error", VString (lit "bad domain"))].

(** A page that has every element, and pages that lack one. *)
Definition complete_page : ElementId -> bool := fun _ => false.

Definition ElementId_eqb (a b : ElementId) : bool :=
  match a, b with
  | el_query, el_query | el_status, el_status
  | el_response, el_response | el_output, el_output
  | el_mode, el_mode | el_domain, el_domain
  | el_sources, el_sources | el_duration, el_duration => true
  | _, _ => false
  end.

Definition without (id : ElementId) : ElementId -> bool :=
  ElementId_eqb id.

(** A backend that never answers. *)
Definition silent {RT : Runtime} : Request -> Promise Response :=
  fun _ => Pending.

(** The answer of the example with fields the handler does not read. *)
Definition answer_with_more : Value :=
  VObject ((lit "error", VNull) ::
           (lit "trace_id", VString (lit "7f")) ::
           (lit "mode", VString (lit "fast")) :: answer_fields).

(** An answer whose [mode] is a number. *)
Definition answer_with_numeric_mode : Value :=
  VObject ((lit "mode", VNumber (lit "1" : Num)) :: answer_fields).

(** The same question typed between a tab and a line feed, on a page
    that shows an earlier answer. *)
Definition submitted_again : World :=
  start (typed ([0x09] ++ lit "what is rust?" ++ [0x0A])
           (reveal (write el_output (lit "42") fresh_page))).

(* ===================================================================== *)
(** * Facts about strings and class tokens *)
(* ===================================================================== *)

Example trim_example :
  trim (lit "  what is  rust? " ++ [0x0A; 0x00A0]) = lit "what is  rust?".
Proof. reflexivity. Qed.

Example stringify_example :
  JSON_stringify [(lit "query", lit "tab" ++ [0x09] ++ lit "quote" ++ [0x22])]
  = [0x7B; 0x22] ++ lit "query" ++ [0x22; 0x3A; 0x22]
      ++ lit "tab" ++ [0x5C; 0x74] ++ lit "quote" ++ [0x5C; 0x22]
      ++ [0x22; 0x7D].
Proof. reflexivity. Qed.

(** A surrogate pair is copied, a lone surrogate escaped. *)
Example quote_surrogates_example :
  QuoteJSONString [0xD83D; 0xDE00; 0xD83D]
  = [0x22; 0xD83D; 0xDE00; 0x5C] ++ lit "ud83d" ++ [0x22].
Proof. reflexivity. Qed.

(** [String([1, [true, "x"], null, {}])] and the same with an object
    that has an own [toString]. *)
Example ToString_array_example :
  ToString (VArray [VNumber (lit "1" : Num);
                    VArray [VBoolean true; VString (lit "x")];
                    VNull; VObject []])
  = Normal (lit "1,true,x,,[object Object]").
Proof. reflexivity. Qed.

Example ToString_throws_example :
  exists e,
    ToString (VArray [VObject [(lit "toString", VNumber (lit "1" : Num))]])
    = Throw e.
Proof. eexists; reflexivity. Qed.

(** [innerText] turns [null] into the empty string and [undefined] into
    its name. *)
Example to_DOMString_example :
  to_DOMString VNull = Normal [] /\
  to_DOMString VUndefined = Normal (lit "undefined").
Proof. split; reflexivity. Qed.

Lemma jsstring_eqb_spec (s t : jsstring) :
  reflect (s = t) (jsstring_eqb s t).
Proof.
  revert t; induction s as [|c s IH]; intros [|d t]; cbn;
    try (constructor; congruence).
  unfold code_unit_eqb.
  destruct (N.eqb_spec c d) as [->|Hcd]; cbn.
  - destruct (IH t) as [->|Hst]; constructor; congruence.
  - constructor; congruence.
Qed.

Lemma jsstring_eqb_refl (s : jsstring) : jsstring_eqb s s = true.
Proof. destruct (jsstring_eqb_spec s s); congruence. Qed.

(** [trimStart] cuts off a prefix of stripped code units and stops at
    the first one that is kept. *)
Lemma trimStart_split (s : jsstring) :
  exists pre,
    s = pre ++ trimStart s /\ forallb isTrimmed pre = true.
Proof.
  induction s as [|c s (pre & Hs & Hpre)]; cbn.
  - exists []; auto.
  - destruct (isTrimmed c) eqn:Hc.
    + exists (c :: pre); cbn; rewrite Hc, Hpre.
      split; [congruence|reflexivity].
    + exists []; auto.
Qed.

Lemma trimStart_head (s : jsstring) c t :
  trimStart s = c :: t -> isTrimmed c = false.
Proof.
  induction s as [|d s IH]; cbn; [discriminate|].
  destruct (isTrimmed d) eqn:Hd; [exact IH|].
  intros [= -> _]; exact Hd.
Qed.

Lemma trimStart_blank (s : jsstring) :
  forallb isTrimmed s = true -> trimStart s = [].
Proof.
  induction s as [|c s IH]; cbn; [reflexivity|].
  destruct (isTrimmed c); cbn; [exact IH|discriminate].
Qed.

Lemma forallb_rev {A} (f : A -> bool) (l : list A) :
  forallb f (rev l) = forallb f l.
Proof.
  induction l as [|a l IH]; cbn; [reflexivity|].
  rewrite forallb_app, IH; cbn. rewrite andb_true_r. apply andb_comm.
Qed.

Lemma trimEnd_split (s : jsstring) :
  exists post,
    s = trimEnd s ++ post /\ forallb isTrimmed post = true.
Proof.
  unfold trimEnd.
  destruct (trimStart_split (rev s)) as (pre & Hs & Hpre).
  exists (rev pre); split.
  - rewrite <- rev_app_distr, <- Hs, rev_involutive; reflexivity.
  - rewrite forallb_rev; exact Hpre.
Qed.

Lemma trimEnd_last (s t : jsstring) c :
  trimEnd s = t ++ [c] -> isTrimmed c = false.
Proof.
  unfold trimEnd; intros H.
  apply (f_equal (@rev _)) in H.
  rewrite rev_involutive, rev_app_distr in H; cbn in H.
  exact (trimStart_head _ _ _ H).
Qed.

(** [trimEnd] keeps the first code unit of what it leaves. *)
Lemma trimEnd_head (s t : jsstring) c :
  trimEnd s = c :: t -> exists s', s = c :: s'.
Proof.
  intros H. destruct (trimEnd_split s) as (post & Hs & _).
  rewrite H in Hs. exists (t ++ post). exact Hs.
Qed.

Lemma trim_blank (s : jsstring) :
  forallb isTrimmed s = true <-> trim s = [].
Proof.
  unfold trim; split.
  - intros H. rewrite (trimStart_blank _ H). reflexivity.
  - intros H.
    destruct (trimStart_split s) as (pre & Hs & Hpre).
    destruct (trimEnd_split (trimStart s)) as (post & Ht & Hpost).
    rewrite H in Ht; cbn in Ht.
    rewrite Hs, forallb_app, Hpre, Ht, Hpost; reflexivity.
Qed.

Lemma trim_stripped (s : jsstring) : stripped s (trim s).
Proof.
  unfold trim; split; [|split].
  - destruct (trimStart_split s) as (pre & Hs & Hpre).
    destruct (trimEnd_split (trimStart s)) as (post & Ht & Hpost).
    exists pre, post; repeat split; trivial.
    rewrite <- Ht; exact Hs.
  - intros c t' H.
    destruct (trimEnd_head _ _ _ H) as (s' & Hs').
    exact (trimStart_head _ _ _ Hs').
  - intros c t' H. exact (trimEnd_last _ _ _ H).
Qed.

Lemma contains_add (token : jsstring) (l : list jsstring) :
  contains (tokens_add token l) token = true.
Proof.
  unfold tokens_add, contains.
  destruct (existsb (jsstring_eqb token) l) eqn:H; [exact H|].
  rewrite existsb_app; cbn.
  rewrite jsstring_eqb_refl, orb_true_r; reflexivity.
Qed.

Lemma contains_remove (token : jsstring) (l : list jsstring) :
  contains (tokens_remove token l) token = false.
Proof.
  unfold tokens_remove, contains.
  induction l as [|t l IH]; cbn; [reflexivity|].
  destruct (jsstring_eqb token t) eqn:H; cbn; [exact IH|].
  rewrite H; exact IH.
Qed.

Lemma tokens_add_idem (token : jsstring) (l : list jsstring) :
  tokens_add token (tokens_add token l) = tokens_add token l.
Proof.
  unfold tokens_add at 1. rewrite contains_add. reflexivity.
Qed.

Lemma tokens_remove_add (token : jsstring) (l : list jsstring) :
  tokens_remove token (tokens_add token l) = tokens_remove token l.
Proof.
  unfold tokens_add. destruct (contains l token); [reflexivity|].
  unfold tokens_remove. rewrite filter_app; cbn.
  rewrite jsstring_eqb_refl; cbn. apply app_nil_r.
Qed.

Lemma tokens_remove_idem (token : jsstring) (l : list jsstring) :
  tokens_remove token (tokens_remove token l) = tokens_remove token l.
Proof.
  unfold tokens_remove. induction l as [|t l IH]; cbn; [reflexivity|].
  destruct (jsstring_eqb token t) eqn:H; cbn; [exact IH|].
  rewrite H; cbn; f_equal; exact IH.
Qed.

(* ===================================================================== *)
(** * Running [askCerebro] symbolically *)
(* ===================================================================== *)

Lemma to_DOMString_string {RT : Runtime} (s : jsstring) :
  to_DOMString (VString s) = Normal s.
Proof. reflexivity. Qed.

(** Unfold the monad and the page updates, leaving the run time's
    conversions folded. *)
Ltac reduce :=
  cbv beta iota zeta
    delta [askCerebro bind ret throw complete try_catch emit update await
           console_error get_value classList_add classList_remove fetch
           set_innerText error_message];
  cbn [document log getElementById setElement query status response output
       mode domain sources duration value innerText classList
       with_innerText with_classList ToBoolean negb jsstring_eqb
       call_toUpperCase fst snd].

(** Replace a subterm the context has an equation for. *)
Ltac use_equation :=
  match goal with
  | |- context [to_DOMString (VString ?s)] => rewrite (to_DOMString_string s)
  | H : ?x = _ |- context [?x] => rewrite H
  end.

(** Follow the one path the hypotheses select. *)
Ltac exec := reduce; repeat (use_equation; reduce).

(** Split on the innermost scrutinee that blocks the run. *)
Ltac split_scrutinee :=
  match goal with
  | |- context [match ?x with _ => _ end] =>
      lazymatch x with
      | context [match _ with _ => _ end] => fail
      | _ => destruct x eqn:?
      end
  end.

(** Follow every path. *)
Ltac explore := exec; repeat (split_scrutinee; exec).

(** The same for [askCerebro_any_page]. *)
Ltac reduce_any :=
  cbv beta iota zeta
    delta [askCerebro_any_page lookup on_element assign_innerText
           bind ret throw complete try_catch emit update await
           console_error get_value classList_add classList_remove fetch
           set_innerText error_message];
  cbn [document log getElementById setElement query status response output
       mode domain sources duration value innerText classList
       with_innerText with_classList ToBoolean negb jsstring_eqb
       call_toUpperCase fst snd].

Ltac exec_any := reduce_any; repeat (use_equation; reduce_any).

Ltac explore_any := exec_any; repeat (split_scrutinee; exec_any).

(* ===================================================================== *)
(** * Properties of [askCerebro] *)
(* ===================================================================== *)

Lemma requests_app (l l' : list Event) :
  requests (l ++ l') = requests l ++ requests l'.
Proof.
  induction l as [|[r|d|e] l IH]; cbn; rewrite ?IH; reflexivity.
Qed.

Lemma hidden_hide (d : Document) : hidden (hide d) = true.
Proof.
  unfold hidden, hide; cbn [setElement response classList with_classList].
  apply contains_add.
Qed.

Lemma hidden_reveal (d : Document) : hidden (reveal d) = false.
Proof.
  unfold hidden, reveal; cbn [setElement response classList with_classList].
  apply contains_remove.
Qed.

Lemma hidden_write (id : ElementId) (text : jsstring) (d : Document) :
  hidden (write id text d) = hidden d.
Proof. destruct id; reflexivity. Qed.

Lemma hidden_thinking (d : Document) : hidden (thinking d) = true.
Proof. apply hidden_hide. Qed.

Section Properties.

Context {RT : Runtime}.
Variable backend : Request -> Promise Response.

(** ** The empty query *)

Lemma askCerebro_blank (w : World) :
  trim (value (query (document w))) = [] ->
  askCerebro backend w
  = (Fulfilled tt,
     {| document := say (lit "Please enter a query.") (document w);
        log := log w |}).
Proof.
  intros E. destruct w as [d l]; cbn [document log] in *.
  exec. reflexivity.
Qed.

(** C2.  A query that is empty or made of white space and line
    terminators only is not sent: the call returns normally, nothing is
    added to the log (so no request goes out) and the status reads
    exactly [Please enter a query.]. *)
Theorem blank_query_is_refused (w : World) :
  forallb isTrimmed (value (query (document w))) = true ->
  exists w',
    askCerebro backend w = (Fulfilled tt, w') /\
    log w' = log w /\
    innerText (status (document w')) = lit "Please enter a query.".
Proof.
  intros H. apply trim_blank in H.
  eexists; split; [exact (askCerebro_blank w H)|].
  split; reflexivity.
Qed.

(** ** What every submission does first *)

(** A non-empty query leads to one request, sent with the page showing
    [Thinking...] and the result region hidden; whatever follows adds
    no request, and every later suspension sees that same page. *)
Lemma askCerebro_submits (w : World) :
  trim (value (query (document w))) <> [] ->
  exists rest,
    log (snd (askCerebro backend w))
    = log w ++ Fetched (the_request (trim (value (query (document w)))))
            :: Suspended (thinking (document w)) :: rest /\
    requests rest = [] /\
    (forall d, In (Suspended d) rest -> d = thinking (document w)).
Proof.
  intros H. destruct w as [d l]; cbn [document log] in *.
  destruct (trim (value (query d))) as [|c q] eqn:E; [congruence|].
  unfold the_request.
  explore;
    cbn [snd log]; rewrite <- ?app_assoc; cbn [app];
    (eexists; split; [reflexivity|]; split; [reflexivity|]);
    cbn [In]; intros d0 Hin;
    repeat (destruct Hin as [Hin|Hin];
            [try discriminate; injection Hin as <-; reflexivity|]);
    contradiction.
Qed.

(** C1.  For a query whose trimmed text is not empty, [askCerebro]
    issues exactly one request, whatever the backend then does: a POST
    to [http://localhost:5000/ask] with the header
    [Content-Type: application/json] and, as body, the JSON object whose
    one member [query] is the trimmed text; the trimmed text is the
    input without its leading and trailing white space. *)
Theorem one_post_per_submission (w : World) :
  let text := trim (value (query (document w))) in
  text <> [] ->
  stripped (value (query (document w))) text /\
  requests (log (snd (askCerebro backend w)))
  = requests (log w) ++
    [ {| url := lit "http://localhost:5000/ask";
         init :=
           {| method := lit "POST";
              headers := [(lit "Content-Type", lit "application/json")];
              body := [0x7B; 0x22] ++ lit "query" ++ [0x22; 0x3A]
                        ++ QuoteJSONString text ++ [0x7D] |} |} ].
Proof.
  intros text H; split; [apply trim_stripped|].
  destruct (askCerebro_submits w H) as (rest & -> & Hrest & _).
  rewrite requests_app; cbn [requests]; rewrite Hrest.
  reflexivity.
Qed.

(** C8, as the code has it.  For a query whose trimmed text is not
    empty, the request is followed at once by the first suspension, and
    the page then reads [Thinking...] (three full stops) with the result
    region hidden; the page is the same at every later suspension of the
    call. *)
Theorem page_while_waiting (w : World) :
  trim (value (query (document w))) <> [] ->
  exists request d rest,
    log (snd (askCerebro backend w))
    = log w ++ Fetched request :: Suspended d :: rest /\
    innerText (status d) = lit "Thinking..." /\
    hidden d = true /\
    (forall d', In (Suspended d') rest -> d' = d).
Proof.
  intros H.
  destruct (askCerebro_submits w H) as (rest & Hlog & _ & Hsame).
  exists (the_request (trim (value (query (document w))))),
    (thinking (document w)), rest.
  split; [exact Hlog|]. split; [reflexivity|].
  split; [apply hidden_thinking|exact Hsame].
Qed.

(** ** Failures of the transport *)

(** C5, as the code has it.  When the request or the parsing of its
    answer fails with [e], the call still returns normally; the status
    reads exactly the warning sign, a space and
    [Failed to connect to Cerebro backend.]; the result region is
    hidden; [e] is the last thing logged; and the one request of C1 is
    the only one. *)
Theorem transport_failure_is_reported (w : World) (e : Exn) :
  let text := trim (value (query (document w))) in
  text <> [] ->
  transport_failure backend (the_request text) e ->
  exists w' before,
    askCerebro backend w = (Fulfilled tt, w') /\
    innerText (status (document w'))
    = warning_sign ++ lit " Failed to connect to Cerebro backend." /\
    hidden (document w') = true /\
    log w' = before ++ [Logged e] /\
    requests (log w') = requests (log w) ++ [the_request text].
Proof.
  intros text H Hfail. subst text.
  destruct w as [d l]; cbn [document log] in *.
  destruct (trim (value (query d))) as [|c q] eqn:E; [congruence|].
  unfold the_request in *.
  destruct Hfail as [Hb|(res & Hb & Hj)].
  - eexists; eexists; split; [exec; reflexivity|].
    cbn [document log status innerText with_innerText].
    split; [reflexivity|]. split; [apply contains_add|].
    split; [reflexivity|].
    rewrite !requests_app; cbn [requests]. rewrite ?app_nil_r; reflexivity.
  - eexists; eexists; split; [exec; reflexivity|].
    cbn [document log status innerText with_innerText].
    split; [reflexivity|]. split; [apply contains_add|].
    split; [reflexivity|].
    rewrite !requests_app; cbn [requests]. rewrite ?app_nil_r; reflexivity.
Qed.

(** ** The answer *)

Lemma join_strings (separator : jsstring) (l : list jsstring) :
  join (VArray (map VString l)) separator = Normal (joined separator l).
Proof.
  cbn [join]. induction l as [|s l IH]; [reflexivity|].
  destruct l as [|t l]; [reflexivity|].
  change (cbind (Normal s) (fun s0 =>
            cbind (join_with ToString separator (map VString (t :: l)))
              (fun r => Normal (s0 ++ separator ++ r)))
          = Normal (joined separator (s :: t :: l))).
  rewrite IH. reflexivity.
Qed.

(** The run that renders: the backend answers, the body parses, [error]
    is falsy and every conversion of the render pass succeeds. *)
Lemma askCerebro_renders (w : World) (res : Response)
    (data err r m dm sv dv : Value) (rs u ds js dus : jsstring) :
  let text := trim (value (query (document w))) in
  text <> [] ->
  backend (the_request text) = Fulfilled res ->
  json res = Fulfilled data ->
  Get data (lit "error") = Normal err -> ToBoolean err = false ->
  Get data (lit "response") = Normal r -> to_DOMString r = Normal rs ->
  Get data (lit "mode") = Normal m -> call_toUpperCase m = Normal u ->
  Get data (lit "domain_used") = Normal dm -> to_DOMString dm = Normal ds ->
  Get data (lit "sources_used") = Normal sv ->
  join sv (lit ", ") = Normal js ->
  Get data (lit "duration_secs") = Normal dv ->
  to_DOMString dv = Normal dus ->
  askCerebro backend w
  = (Fulfilled tt,
     {| document :=
          say [] (reveal
            (write el_duration dus (write el_sources js
              (write el_domain ds (write el_mode u
                (write el_output rs (thinking (document w))))))));
        log := log w ++ [Fetched (the_request text);
                         Suspended (thinking (document w));
                         Suspended (thinking (document w))] |}).
Proof.
  intros text H Hb Hj He Hf Hr Hrs Hm Hu Hd Hds Hs Hjs Hv Hdus.
  subst text. destruct w as [d l]; cbn [document log] in *.
  destruct (trim (value (query d))) as [|c q] eqn:E; [congruence|].
  unfold the_request in *.
  exec. rewrite <- !app_assoc. reflexivity.
Qed.

(** C3.  When the body parses to a response whose [error] is absent or
    falsy, and whose other fields have the types of the data model, the
    call returns normally with [response] and [domain_used] shown as
    they are, [mode] upper-cased, [sources_used] joined with a comma and
    a space, [duration_secs] in the default rendering of the number, the
    result region revealed and the status empty. *)
Theorem answer_is_rendered (w : World) (res : Response) (data err : Value)
    (r m dm : jsstring) (srcs : list jsstring) (n : Num) :
  let text := trim (value (query (document w))) in
  text <> [] ->
  backend (the_request text) = Fulfilled res ->
  json res = Fulfilled data ->
  Get data (lit "error") = Normal err -> ToBoolean err = false ->
  Get data (lit "response") = Normal (VString r) ->
  Get data (lit "mode") = Normal (VString m) ->
  Get data (lit "domain_used") = Normal (VString dm) ->
  Get data (lit "sources_used") = Normal (VArray (map VString srcs)) ->
  Get data (lit "duration_secs") = Normal (VNumber n) ->
  exists w',
    askCerebro backend w = (Fulfilled tt, w') /\
    innerText (output (document w')) = r /\
    innerText (mode (document w')) = toUpperCase m /\
    innerText (domain (document w')) = dm /\
    innerText (sources (document w')) = joined (lit ", ") srcs /\
    innerText (duration (document w')) = Number_toString n /\
    hidden (document w') = false /\
    innerText (status (document w')) = [].
Proof.
  intros text H Hb Hj He Hf Hr Hm Hd Hs Hv.
  eexists; split.
  - eapply (askCerebro_renders w);
      [exact H|exact Hb|exact Hj|exact He|exact Hf|exact Hr|reflexivity
      |exact Hm|reflexivity|exact Hd|reflexivity|exact Hs|apply join_strings
      |exact Hv|reflexivity].
  - cbn [document]. repeat (split; [reflexivity|]). split; [|reflexivity].
    unfold say. rewrite hidden_write. apply hidden_reveal.
Qed.

(** ** The error the backend reports *)

(** The run that reports: the backend answers, the body parses and
    [error] is truthy.  The template literal converts [error] to a
    string; should that throw, the handler of [catch] takes over. *)
Lemma askCerebro_reports (w : World) (res : Response) (data err : Value) :
  let text := trim (value (query (document w))) in
  text <> [] ->
  backend (the_request text) = Fulfilled res ->
  json res = Fulfilled data ->
  Get data (lit "error") = Normal err -> ToBoolean err = true ->
  askCerebro backend w
  = (Fulfilled tt,
     {| document :=
          say (match ToString err with
               | Normal s => warning_sign ++ lit " Error: " ++ s
               | Throw _ => connection_failed
               end) (thinking (document w));
        log := log w ++ [Fetched (the_request text);
                         Suspended (thinking (document w));
                         Suspended (thinking (document w))]
                 ++ (match ToString err with
                     | Normal _ => []
                     | Throw e => [Logged e]
                     end) |}).
Proof.
  intros text H Hb Hj He Ht.
  subst text. destruct w as [d l]; cbn [document log] in *.
  destruct (trim (value (query d))) as [|c q] eqn:E; [congruence|].
  unfold the_request in *.
  destruct (ToString err) as [s|e] eqn:Hs;
    exec; rewrite <- !app_assoc; reflexivity.
Qed.

(** C4.  When the body parses to a response whose [error] is truthy, the
    call returns normally with the result region hidden, and the status
    is the warning sign, [ Error: ] and the value of [error]: the value
    itself when it is a string, as the data model has it, and in general
    what the template literal makes of it. *)
Theorem backend_error_is_shown (w : World) (res : Response)
    (data err : Value) :
  let text := trim (value (query (document w))) in
  text <> [] ->
  backend (the_request text) = Fulfilled res ->
  json res = Fulfilled data ->
  Get data (lit "error") = Normal err -> ToBoolean err = true ->
  exists w',
    askCerebro backend w = (Fulfilled tt, w') /\
    hidden (document w') = true /\
    (forall s, err = VString s ->
       innerText (status (document w'))
       = warning_sign ++ lit " Error: " ++ s) /\
    (forall s, ToString err = Normal s ->
       innerText (status (document w'))
       = warning_sign ++ lit " Error: " ++ s).
Proof.
  intros text H Hb Hj He Ht.
  eexists; split; [exact (askCerebro_reports w res data err H Hb Hj He Ht)|].
  cbn [document]. split; [|split].
  - unfold say. rewrite hidden_write. apply hidden_thinking.
  - intros s ->. reflexivity.
  - intros s Hs. rewrite Hs. reflexivity.
Qed.

(** C6, as the code has it.  When the body parses to an object that has
    an [error] property, what counts is whether its value is truthy, not
    that it is there.  If it is truthy the failure path is taken: the
    result region stays hidden, the five answer elements are not
    written, and the status is the warning sign, [ Error: ] and the
    value as a string whenever the template literal can convert it, as
    it can every string, number and boolean; if the conversion throws,
    as for an object that has an own [toString], the handler of [catch]
    runs and the status reads the connection failure.  If the value is
    falsy (the empty string, zero, [false], [null]) the failure path is
    not taken: the status never shows an error message of the
    backend. *)
Theorem present_error_counts_when_truthy (w : World) (res : Response)
    (ps : list (jsstring * Value)) (err : Value) :
  let text := trim (value (query (document w))) in
  text <> [] ->
  backend (the_request text) = Fulfilled res ->
  json res = Fulfilled (VObject ps) ->
  own_property ps (lit "error") = Some err ->
  exists w',
    askCerebro backend w = (Fulfilled tt, w') /\
    (ToBoolean err = true ->
       hidden (document w') = true /\
       (forall id, In id result_fields ->
          getElementById (document w') id
          = getElementById (document w) id) /\
       innerText (status (document w'))
       = match ToString err with
         | Normal s => warning_sign ++ lit " Error: " ++ s
         | Throw _ =>
             warning_sign ++ lit " Failed to connect to Cerebro backend."
         end /\
       (forall s, err = VString s ->
          innerText (status (document w'))
          = warning_sign ++ lit " Error: " ++ s) /\
       (forall n, err = VNumber n ->
          innerText (status (document w'))
          = warning_sign ++ lit " Error: " ++ Number_toString n) /\
       (err = VBoolean true ->
          innerText (status (document w'))
          = warning_sign ++ lit " Error: true") /\
       (forall ps' v, err = VObject ps' ->
          own_property ps' (lit "toString") = Some v ->
          innerText (status (document w'))
          = warning_sign ++ lit " Failed to connect to Cerebro backend.")) /\
    (ToBoolean err = false ->
       forall s,
         innerText (status (document w'))
         <> warning_sign ++ lit " Error: " ++ s).
Proof.
  intros text H Hb Hj Hown.
  assert (He : Get (VObject ps) (lit "error") = Normal err)
    by (cbn [Get]; rewrite Hown; reflexivity).
  destruct (ToBoolean err) eqn:Ht.
  - eexists; split;
      [exact (askCerebro_reports w res (VObject ps) err H Hb Hj He Ht)|].
    split; [|discriminate].
    intros _. cbn [document]. split; [|split; [|split]].
    + unfold say. rewrite hidden_write. apply hidden_thinking.
    + intros id Hid; cbn [result_fields In] in Hid.
      repeat (destruct Hid as [<-|Hid]; [reflexivity|]). contradiction.
    + reflexivity.
    + split; [intros s ->; reflexivity|].
      split; [intros n ->; reflexivity|].
      split; [intros ->; reflexivity|].
      intros ps' v -> Hv.
      cbn [say write setElement status innerText with_innerText ToString].
      rewrite Hv. reflexivity.
  - subst text. destruct w as [d l]; cbn [document log] in *.
    destruct (trim (value (query d))) as [|c q] eqn:E; [congruence|].
    unfold the_request in *.
    destruct (askCerebro backend {| document := d; log := l |})
      as [p w'] eqn:Hrun.
    revert Hrun. explore; intros [= <- <-];
      (eexists; split; [reflexivity|]; split; [discriminate|]);
      intros _ s; cbn [document status innerText with_innerText];
      intros Heq; cbv in Heq; discriminate Heq.
Qed.

(** ** Fields the response lacks *)

(** C7, as the code has it.  Take a response whose [error] is falsy.
    If [mode] is a string and [sources_used] an array of strings, the
    render pass completes whether or not [response], [domain_used] and
    [duration_secs] are there, and an absent one is shown as the text
    [undefined].  If [mode] or [sources_used] is absent, the render pass
    throws, the handler of [catch] runs, the status reads the
    connection failure and the result region stays hidden. *)
Theorem absent_fields (w : World) (res : Response) (data err : Value) :
  let text := trim (value (query (document w))) in
  text <> [] ->
  backend (the_request text) = Fulfilled res ->
  json res = Fulfilled data ->
  Get data (lit "error") = Normal err -> ToBoolean err = false ->
  (forall (r dm : option jsstring) (dv : option Num)
          (m : jsstring) (srcs : list jsstring),
      Get data (lit "response")
      = Normal (or_undefined (option_map VString r)) ->
      Get data (lit "mode") = Normal (VString m) ->
      Get data (lit "domain_used")
      = Normal (or_undefined (option_map VString dm)) ->
      Get data (lit "sources_used") = Normal (VArray (map VString srcs)) ->
      Get data (lit "duration_secs")
      = Normal (or_undefined (option_map VNumber dv)) ->
      exists w',
        askCerebro backend w = (Fulfilled tt, w') /\
        hidden (document w') = false /\
        innerText (status (document w')) = [] /\
        innerText (output (document w')) = text_or_undefined r /\
        innerText (mode (document w')) = toUpperCase m /\
        innerText (domain (document w')) = text_or_undefined dm /\
        innerText (sources (document w')) = joined (lit ", ") srcs /\
        innerText (duration (document w'))
        = text_or_undefined (option_map Number_toString dv)) /\
  (Get data (lit "mode") = Normal VUndefined \/
   Get data (lit "sources_used") = Normal VUndefined ->
   exists w',
     askCerebro backend w = (Fulfilled tt, w') /\
     hidden (document w') = true /\
     innerText (status (document w'))
     = warning_sign ++ lit " Failed to connect to Cerebro backend.").
Proof.
  intros text H Hb Hj He Hf. split.
  - intros r dm dv m srcs Hr Hm Hd Hs Hv.
    eexists; split.
    + eapply (askCerebro_renders w);
        [exact H|exact Hb|exact Hj|exact He|exact Hf|exact Hr|
        |exact Hm|reflexivity|exact Hd| |exact Hs|apply join_strings
        |exact Hv| ].
      * instantiate (1 := text_or_undefined r). destruct r; reflexivity.
      * instantiate (1 := text_or_undefined dm). destruct dm; reflexivity.
      * instantiate (1 := text_or_undefined (option_map Number_toString dv)).
        destruct dv; reflexivity.
    + cbn [document]. split.
      * unfold say. rewrite hidden_write. apply hidden_reveal.
      * repeat split; reflexivity.
  - intros Habsent.
    subst text. destruct w as [d l]; cbn [document log] in *.
    destruct (trim (value (query d))) as [|c q] eqn:E; [congruence|].
    unfold the_request in *.
    destruct (askCerebro backend {| document := d; log := l |})
      as [p w'] eqn:Hrun.
    revert Hrun.
    destruct Habsent as [Hm|Hs];
      explore; intros [= <- <-];
      try discriminate;
      (eexists; split; [reflexivity|]; split;
       [apply contains_add|reflexivity]).
Qed.

(** ** What the failure paths leave alone *)

(** C10.  On the empty-query path and on the path of a truthy [error],
    the five elements that carry the answer are as they were.  On the
    empty-query path the result region is untouched as well, so that it
    is hidden after the call exactly if it was before, while the status
    reads [Please enter a query.]. *)
Theorem failure_paths_keep_the_result (w : World) :
  let v := value (query (document w)) in
  let d' := document (snd (askCerebro backend w)) in
  (trim v = [] ->
     (forall id, In id result_fields ->
        getElementById d' id = getElementById (document w) id) /\
     response d' = response (document w) /\
     hidden d' = hidden (document w) /\
     innerText (status d') = lit "Please enter a query.") /\
  (forall res data err,
     trim v <> [] ->
     backend (the_request (trim v)) = Fulfilled res ->
     json res = Fulfilled data ->
     Get data (lit "error") = Normal err -> ToBoolean err = true ->
     forall id, In id result_fields ->
       getElementById d' id = getElementById (document w) id).
Proof.
  intros v d'; subst v d'; split.
  - intros E. rewrite (askCerebro_blank w E); cbn [snd document].
    split; [|repeat split].
    intros id Hid; cbn [result_fields In] in Hid.
    repeat (destruct Hid as [<-|Hid]; [reflexivity|]). contradiction.
  - intros res data err H Hb Hj He Ht id Hid.
    rewrite (askCerebro_reports w res data err H Hb Hj He Ht);
      cbn [snd document].
    cbn [result_fields In] in Hid.
    repeat (destruct Hid as [<-|Hid]; [reflexivity|]). contradiction.
Qed.

(** ** Idempotence *)

(** C9.  A second submission of the same query to the same backend,
    made when the first has run its course, ends as the first did and
    leaves the page exactly as the first left it.  (The first call does
    not touch the input field, so the second reads the same query.) *)
Theorem askCerebro_twice (w : World) :
  let first := askCerebro backend w in
  let second := askCerebro backend (snd first) in
  value (query (document (snd first))) = value (query (document w)) /\
  fst second = fst first /\
  document (snd second) = document (snd first).
Proof.
  destruct w as [d l]. cbv zeta.
  destruct (askCerebro backend {| document := d; log := l |})
    as [p1 w1] eqn:H1.
  cbn [fst snd].
  pose (again := askCerebro backend).
  change (askCerebro backend w1) with (again w1).
  revert H1. explore; intros [= <- <-]; subst again; exec;
    (split; [reflexivity|]); (split; [reflexivity|]);
    repeat rewrite tokens_remove_add;
    rewrite ?tokens_add_idem, ?tokens_remove_idem;
    reflexivity.
Qed.

End Properties.

(* ===================================================================== *)
(** * Further properties of [askCerebro] *)
(* ===================================================================== *)

Lemma logged_app (l l' : list Event) :
  logged (l ++ l') = logged l ++ logged l'.
Proof.
  induction l as [|[r|d|e] l IH]; cbn; rewrite ?IH; reflexivity.
Qed.

Section More.

Context {RT : Runtime}.
Variable backend : Request -> Promise Response.

(** ** How a call ends *)

(** X2.  While the backend does not answer, the call is pending with the
    page reading [Thinking...] and the result region hidden, the one
    request sent and nothing written to the console: there is no
    time-out. *)
Theorem hung_request_shows_thinking (w : World) :
  let text := trim (value (query (document w))) in
  text <> [] ->
  hangs backend (the_request text) ->
  exists w',
    askCerebro backend w = (Pending, w') /\
    document w' = thinking (document w) /\
    innerText (status (document w')) = lit "Thinking..." /\
    hidden (document w') = true /\
    requests (log w') = requests (log w) ++ [the_request text] /\
    logged (log w') = logged (log w).
Proof.
  intros text H Hhang. subst text.
  destruct w as [d l]; cbn [document log] in *.
  destruct (trim (value (query d))) as [|c q] eqn:E; [congruence|].
  unfold hangs, the_request in *.
  destruct Hhang as [Hb|(res & Hb & Hj)];
    (eexists; split; [exec; reflexivity|]);
    cbn [document log];
    (split; [reflexivity|]); (split; [reflexivity|]);
    (split; [apply contains_add|]);
    rewrite !requests_app, !logged_app; cbn [requests logged];
    rewrite ?app_nil_r; split; reflexivity.
Qed.

(** X3.  A call writes at most one error to the console, and it writes
    one exactly when it leaves the status reading the connection
    failure. *)
Theorem console_error_iff_connection_failed (w : World) :
  let w' := snd (askCerebro backend w) in
  exists errors,
    logged (log w') = logged (log w) ++ errors /\
    (List.length errors <= 1)%nat /\
    (errors <> [] <->
     innerText (status (document w'))
     = warning_sign ++ lit " Failed to connect to Cerebro backend.").
Proof.
  destruct w as [d l]. cbv zeta.
  explore; cbn [snd log document status innerText with_innerText];
    rewrite ?logged_app; cbn [logged]; rewrite <- ?app_assoc;
    first [ eexists; split; [reflexivity|]
          | exists []; split; [rewrite app_nil_r; reflexivity|] ];
    cbn [List.length app];
    (split; [lia|]);
    (split;
     [ intros Hne; first [reflexivity | exfalso; apply Hne; reflexivity]
     | intros Heq; first [discriminate | cbv in Heq; discriminate Heq] ]).
Qed.

(** ** What the result region shows *)

(** X4.  A call reveals the result region only at the end of a render
    pass of its own.  For one call taken by itself, nothing else acting
    on the page while it waits: if the result region is visible when
    the call with a query that is not blank is over, then the backend
    answered it, the body parsed, its [error] was falsy, the five
    elements show the five fields of that body, the status is empty and
    the call returned normally.  (With a second call in flight the page
    can change under the first; that is outside this statement.) *)
Theorem visible_result_is_current (w : World) :
  let text := trim (value (query (document w))) in
  let w' := snd (askCerebro backend w) in
  text <> [] ->
  hidden (document w') = false ->
  exists res data err,
    backend (the_request text) = Fulfilled res /\
    json res = Fulfilled data /\
    Get data (lit "error") = Normal err /\ ToBoolean err = false /\
    renders data
      (innerText (output (document w'))) (innerText (mode (document w')))
      (innerText (domain (document w'))) (innerText (sources (document w')))
      (innerText (duration (document w'))) /\
    innerText (status (document w')) = [] /\
    fst (askCerebro backend w) = Fulfilled tt.
Proof.
  intros text w' H. subst text w'.
  destruct w as [d l]; cbn [document log] in *.
  destruct (trim (value (query d))) as [|c q] eqn:E; [congruence|].
  unfold the_request, hidden, renders.
  destruct (askCerebro backend {| document := d; log := l |})
    as [p w'] eqn:Hrun.
  revert Hrun. explore; intros [= <- <-];
    cbn [fst snd document response output mode domain sources duration
         status classList innerText with_classList with_innerText];
    rewrite ?contains_add; intros Hvisible; try discriminate Hvisible.
  do 3 eexists. repeat (split; [first [eassumption|reflexivity]|]).
  split; [|split; reflexivity].
  do 5 eexists. repeat (split; [eassumption|]). eassumption.
Qed.
(** The run in which [toUpperCase] throws: [output] has been written,
    the other four elements have not. *)
Lemma askCerebro_stops_at_mode (w : World) (res : Response)
    (data err r m : Value) (rs : jsstring) (e : Exn) :
  let text := trim (value (query (document w))) in
  text <> [] ->
  backend (the_request text) = Fulfilled res ->
  json res = Fulfilled data ->
  Get data (lit "error") = Normal err -> ToBoolean err = false ->
  Get data (lit "response") = Normal r -> to_DOMString r = Normal rs ->
  Get data (lit "mode") = Normal m -> call_toUpperCase m = Throw e ->
  askCerebro backend w
  = (Fulfilled tt,
     {| document :=
          say connection_failed (write el_output rs (thinking (document w)));
        log := log w ++ [Fetched (the_request text);
                         Suspended (thinking (document w));
                         Suspended (thinking (document w));
                         Logged e] |}).
Proof.
  intros text H Hb Hj He Hf Hr Hrs Hm Hu. subst text.
  destruct w as [d l]; cbn [document log] in *.
  destruct (trim (value (query d))) as [|c q] eqn:E; [congruence|].
  unfold the_request in *.
  exec. rewrite <- !app_assoc. reflexivity.
Qed.

(** The run in which reading [data.error] throws. *)
Lemma askCerebro_stops_at_error (w : World) (res : Response)
    (data : Value) (e : Exn) :
  let text := trim (value (query (document w))) in
  text <> [] ->
  backend (the_request text) = Fulfilled res ->
  json res = Fulfilled data ->
  Get data (lit "error") = Throw e ->
  askCerebro backend w
  = (Fulfilled tt,
     {| document := say connection_failed (thinking (document w));
        log := log w ++ [Fetched (the_request text);
                         Suspended (thinking (document w));
                         Suspended (thinking (document w));
                         Logged e] |}).
Proof.
  intros text H Hb Hj He. subst text.
  destruct w as [d l]; cbn [document log] in *.
  destruct (trim (value (query d))) as [|c q] eqn:E; [congruence|].
  unfold the_request in *.
  exec. rewrite <- !app_assoc. reflexivity.
Qed.

Lemma last_four_kept (d d' : Document) :
  mode d' = mode d -> domain d' = domain d ->
  sources d' = sources d -> duration d' = duration d ->
  forall id, In id [el_mode; el_domain; el_sources; el_duration] ->
    getElementById d' id = getElementById d id.
Proof.
  intros H1 H2 H3 H4 id Hid; cbn [In] in Hid.
  repeat (destruct Hid as [<-|Hid]; [assumption|]). contradiction.
Qed.

(** X5.  The render pass is not undone when it throws.  If [mode] has
    no [toUpperCase], [output] already shows the response while the
    other four elements are as they were; the region stays hidden, the
    status reads the connection failure and the error is logged. *)
Theorem render_stops_where_it_throws (w : World) (res : Response)
    (data err r m : Value) (rs : jsstring) (e : Exn) :
  let text := trim (value (query (document w))) in
  text <> [] ->
  backend (the_request text) = Fulfilled res ->
  json res = Fulfilled data ->
  Get data (lit "error") = Normal err -> ToBoolean err = false ->
  Get data (lit "response") = Normal r -> to_DOMString r = Normal rs ->
  Get data (lit "mode") = Normal m -> call_toUpperCase m = Throw e ->
  exists w' before,
    askCerebro backend w = (Fulfilled tt, w') /\
    innerText (output (document w')) = rs /\
    (forall id, In id [el_mode; el_domain; el_sources; el_duration] ->
       getElementById (document w') id = getElementById (document w) id) /\
    hidden (document w') = true /\
    innerText (status (document w'))
    = warning_sign ++ lit " Failed to connect to Cerebro backend." /\
    log w' = before ++ [Logged e].
Proof.
  intros text H Hb Hj He Hf Hr Hrs Hm Hu.
  exists {| document :=
              say connection_failed
                (write el_output rs (thinking (document w)));
            log := log w ++ [Fetched (the_request text);
                             Suspended (thinking (document w));
                             Suspended (thinking (document w));
                             Logged e] |},
    (log w ++ [Fetched (the_request text);
               Suspended (thinking (document w));
               Suspended (thinking (document w))]).
  split; [exact (askCerebro_stops_at_mode w res data err r m rs e
                   H Hb Hj He Hf Hr Hrs Hm Hu)|].
  cbn [document log]. split; [reflexivity|].
  split; [apply last_four_kept; reflexivity|].
  split; [unfold say; rewrite !hidden_write; apply hidden_thinking|].
  split; [reflexivity|].
  rewrite <- app_assoc. reflexivity.
Qed.

(** X6.  A body that parses but is no object is reported as a
    connection failure, with a [TypeError] on the console.  For [null]
    nothing else changes; for a number, a string, a boolean or an array
    [output] is overwritten with the text [undefined]. *)
Theorem body_that_is_no_object (w : World) (res : Response) (data : Value) :
  let text := trim (value (query (document w))) in
  text <> [] ->
  backend (the_request text) = Fulfilled res ->
  json res = Fulfilled data ->
  data = VNull \/ not_an_object data = true ->
  exists w' message,
    askCerebro backend w = (Fulfilled tt, w') /\
    innerText (status (document w'))
    = warning_sign ++ lit " Failed to connect to Cerebro backend." /\
    hidden (document w') = true /\
    logged (log w') = logged (log w) ++ [TypeError message] /\
    (forall id, In id [el_mode; el_domain; el_sources; el_duration] ->
       getElementById (document w') id = getElementById (document w) id) /\
    (data = VNull -> output (document w') = output (document w)) /\
    (not_an_object data = true ->
     innerText (output (document w')) = lit "undefined").
Proof.
  intros text H Hb Hj Hdata.
  destruct Hdata as [->|Hdata].
  - do 2 eexists.
    split; [exact (askCerebro_stops_at_error w res VNull _
                     H Hb Hj eq_refl)|].
    cbn [document log]. split; [reflexivity|].
    split; [unfold say; rewrite !hidden_write; apply hidden_thinking|].
    split; [rewrite !logged_app; cbn [logged];
            rewrite ?app_nil_r; reflexivity|].
    split; [apply last_four_kept; reflexivity|].
    split; [reflexivity|discriminate].
  - assert (Hget : forall key, Get data key = Normal VUndefined)
      by (intros key; destruct data; try discriminate Hdata; reflexivity).
    do 2 eexists.
    split; [exact (askCerebro_stops_at_mode w res data VUndefined VUndefined
                     VUndefined (lit "undefined") _
                     H Hb Hj (Hget _) eq_refl (Hget _) eq_refl
                     (Hget _) eq_refl)|].
    cbn [document log]. split; [reflexivity|].
    split; [unfold say; rewrite !hidden_write; apply hidden_thinking|].
    split; [rewrite !logged_app; cbn [logged];
            rewrite ?app_nil_r; reflexivity|].
    split; [apply last_four_kept; reflexivity|].
    split; [intros ->; discriminate Hdata|reflexivity].
Qed.

(** ** What no call touches *)

(** X7.  On every path the input field is left as it is, no element
    changes its [value], no element but the result region changes its
    classes, the result region keeps its text, and its classes other
    than [hidden] stay, in their order. *)
Theorem askCerebro_frame (w : World) :
  let d := document w in
  let d' := document (snd (askCerebro backend w)) in
  query d' = query d /\
  (forall id, value (getElementById d' id) = value (getElementById d id)) /\
  (forall id, id <> el_response ->
     classList (getElementById d' id) = classList (getElementById d id)) /\
  innerText (response d') = innerText (response d) /\
  tokens_remove (lit "hidden") (classList (response d'))
  = tokens_remove (lit "hidden") (classList (response d)).
Proof.
  destruct w as [d l]. cbv zeta. cbn [document].
  destruct (askCerebro backend {| document := d; log := l |})
    as [p w'] eqn:Hrun.
  revert Hrun. explore; intros [= <- <-]; cbn [snd document];
    (split; [reflexivity|]);
    (split; [intros id; destruct id; reflexivity|]);
    (split; [intros id Hid; destruct id; try reflexivity; congruence|]);
    (split; [reflexivity|]);
    cbn [response classList with_classList];
    rewrite ?tokens_remove_idem, ?tokens_remove_add, ?tokens_remove_idem;
    reflexivity.
Qed.
End More.

(** ** What of the body matters *)

Section TwoBackends.

Context {RT : Runtime}.

(** X8.  Of the parsed body only six properties are read.  Two bodies
    with the same truthy [error] lead to the same run whatever else they
    hold; so do two bodies whose [error] is falsy, present or not, and
    that agree on the five fields rendered. *)
Theorem only_six_properties_matter
    (backend1 backend2 : Request -> Promise Response) (w : World)
    (res1 res2 : Response) (data1 data2 err1 err2 : Value) :
  let text := trim (value (query (document w))) in
  text <> [] ->
  backend1 (the_request text) = Fulfilled res1 ->
  backend2 (the_request text) = Fulfilled res2 ->
  json res1 = Fulfilled data1 ->
  json res2 = Fulfilled data2 ->
  Get data1 (lit "error") = Normal err1 ->
  Get data2 (lit "error") = Normal err2 ->
  (ToBoolean err1 = true /\ err2 = err1) \/
  (ToBoolean err1 = false /\ ToBoolean err2 = false /\
   forall key,
     In key [lit "response"; lit "mode"; lit "domain_used";
             lit "sources_used"; lit "duration_secs"] ->
     Get data1 key = Get data2 key) ->
  askCerebro backend1 w = askCerebro backend2 w.
Proof.
  intros text H Hb1 Hb2 Hj1 Hj2 He1 He2 Hsame. subst text.
  destruct w as [d l]; cbn [document log] in *.
  destruct (trim (value (query d))) as [|c q] eqn:E; [congruence|].
  unfold the_request in *.
  destruct Hsame as [[Ht ->]|(Hf1 & Hf2 & Hkeys)].
  - exec. reflexivity.
  - pose proof (Hkeys (lit "response") ltac:(cbn [In]; tauto)) as K1.
    pose proof (Hkeys (lit "mode") ltac:(cbn [In]; tauto)) as K2.
    pose proof (Hkeys (lit "domain_used") ltac:(cbn [In]; tauto)) as K3.
    pose proof (Hkeys (lit "sources_used") ltac:(cbn [In]; tauto)) as K4.
    pose proof (Hkeys (lit "duration_secs") ltac:(cbn [In]; tauto)) as K5.
    clear Hkeys.
    exec. reflexivity.
Qed.
End TwoBackends.

(** ** The body of the request *)

Lemma hex_value_hex_digit (n : N) :
  n < 16 -> hex_value (hex_digit n) = n.
Proof.
  intros H. unfold hex_value, hex_digit.
  destruct (N.ltb_spec n 10).
  - destruct (N.ltb_spec (0x30 + n) 0x3A); lia.
  - destruct (N.ltb_spec (0x61 + (n - 10)) 0x3A); lia.
Qed.

Lemma hex_digits_value (c : code_unit) :
  c < 65536 ->
  4096 * ((c / 4096) mod 16) + 256 * ((c / 256) mod 16)
  + 16 * ((c / 16) mod 16) + c mod 16 = c.
Proof.
  intros H.
  pose proof (N.div_mod c 16 ltac:(lia)).
  pose proof (N.div_mod (c / 16) 16 ltac:(lia)).
  pose proof (N.div_mod (c / 256) 16 ltac:(lia)).
  pose proof (N.mod_lt c 16 ltac:(lia)).
  pose proof (N.mod_lt (c / 16) 16 ltac:(lia)).
  pose proof (N.mod_lt (c / 256) 16 ltac:(lia)).
  assert (c / 256 = c / 16 / 16) by (rewrite N.Div0.div_div; reflexivity).
  assert (c / 4096 = c / 256 / 16) by (rewrite N.Div0.div_div; reflexivity).
  assert (c / 4096 < 16) by (apply N.Div0.div_lt_upper_bound; lia).
  rewrite (N.mod_small (c / 4096) 16) by assumption.
  lia.
Qed.

Lemma unquote_UnicodeEscape (c : code_unit) (rest : jsstring) :
  c < 65536 ->
  unquote_units (UnicodeEscape c ++ rest) = c :: unquote_units rest.
Proof.
  intros H. unfold UnicodeEscape.
  change (unquote_units (_ ++ rest))
    with ((4096 * hex_value (hex_digit ((c / 4096) mod 16))
           + 256 * hex_value (hex_digit ((c / 256) mod 16))
           + 16 * hex_value (hex_digit ((c / 16) mod 16))
           + hex_value (hex_digit (c mod 16))) :: unquote_units rest).
  rewrite !hex_value_hex_digit by (apply N.mod_lt; lia).
  rewrite hex_digits_value by assumption. reflexivity.
Qed.

Lemma unquote_plain (c : code_unit) (rest : jsstring) :
  c <> 0x5C -> unquote_units (c :: rest) = c :: unquote_units rest.
Proof.
  intros H. cbn [unquote_units].
  destruct (N.eqb_spec c 0x5C); [contradiction|reflexivity].
Qed.

Lemma unquote_quote_unit (c : code_unit) (rest : jsstring) :
  unquote_units (quote_unit c ++ rest) = c :: unquote_units rest.
Proof.
  unfold quote_unit.
  repeat match goal with
         | |- context [if ?x =? ?k then _ else _] =>
             destruct (N.eqb_spec x k); [subst; reflexivity|]
         end.
  destruct ((c <? 0x20) || isLeadingSurrogate c || isTrailingSurrogate c)
    eqn:Hesc.
  - apply unquote_UnicodeEscape.
    unfold isLeadingSurrogate, isTrailingSurrogate in Hesc.
    rewrite !orb_true_iff, !andb_true_iff, N.ltb_lt, !N.leb_le in Hesc.
    lia.
  - apply unquote_plain. assumption.
Qed.

Lemma quote_units_two (c d : code_unit) (s : jsstring) :
  quote_units (c :: d :: s)
  = if isLeadingSurrogate c && isTrailingSurrogate d
    then c :: d :: quote_units s
    else quote_unit c ++ quote_units (d :: s).
Proof. reflexivity. Qed.

Lemma unquote_quote_units (s : jsstring) :
  unquote_units (quote_units s) = s.
Proof.
  assert (Hlen : forall n s, (List.length s <= n)%nat ->
                   unquote_units (quote_units s) = s).
  { clear s. induction n as [|n IH]; intros [|c [|d s]] Hn;
      cbn [List.length] in Hn; try lia; try reflexivity.
    - cbn [quote_units]. rewrite <- (app_nil_r (quote_unit c)).
      apply unquote_quote_unit.
    - rewrite quote_units_two.
      destruct (isLeadingSurrogate c && isTrailingSurrogate d) eqn:Hpair.
      + unfold isLeadingSurrogate, isTrailingSurrogate in Hpair.
        rewrite !andb_true_iff, !N.leb_le in Hpair.
        rewrite unquote_plain by lia. rewrite unquote_plain by lia.
        rewrite IH by lia. reflexivity.
      + rewrite unquote_quote_unit. rewrite IH by (cbn [List.length]; lia).
        reflexivity. }
  exact (Hlen (List.length s) s (le_n _)).
Qed.

Lemma QuoteJSONString_injective (s t : jsstring) :
  QuoteJSONString s = QuoteJSONString t -> s = t.
Proof.
  unfold QuoteJSONString. intros H.
  apply app_inv_head in H. apply app_inj_tail in H. destruct H as [H _].
  rewrite <- (unquote_quote_units s), <- (unquote_quote_units t), H.
  reflexivity.
Qed.

Lemma the_request_injective (s t : jsstring) :
  the_request s = the_request t -> s = t.
Proof.
  unfold the_request, JSON_stringify. intros H.
  injection H as H.
  apply app_inj_tail in H. destruct H as [H _].
  apply QuoteJSONString_injective. unfold QuoteJSONString.
  cbn [app]. f_equal. exact H.
Qed.

Section Body.

Context {RT : Runtime}.
Variable backend : Request -> Promise Response.

(** X9.  The request carries the query without loss: two calls that
    send the same request were made with the same trimmed text. *)
Theorem request_determines_query (w1 w2 : World) :
  let text1 := trim (value (query (document w1))) in
  let text2 := trim (value (query (document w2))) in
  text1 <> [] -> text2 <> [] ->
  requests (log w1) = requests (log w2) ->
  requests (log (snd (askCerebro backend w1)))
  = requests (log (snd (askCerebro backend w2))) ->
  text1 = text2.
Proof.
  intros text1 text2 H1 H2 Hlog Hreq. subst text1 text2.
  destruct (askCerebro_submits backend w1 H1) as (r1 & E1 & N1 & _).
  destruct (askCerebro_submits backend w2 H2) as (r2 & E2 & N2 & _).
  rewrite E1, E2, !requests_app in Hreq. cbn [requests] in Hreq.
  rewrite N1, N2, Hlog in Hreq.
  apply app_inv_head in Hreq.
  apply (f_equal (hd (the_request []))) in Hreq. cbn [hd] in Hreq.
  exact (the_request_injective _ _ Hreq).
Qed.
End Body.

(* ===================================================================== *)
(** * Properties of [askCerebro_any_page] *)
(* ===================================================================== *)

Section AnyPageFacts.

Context {RT : Runtime}.
Variable backend : Request -> Promise Response.
Variable absent : ElementId -> bool.

(** On a page that has the eight elements no lookup answers [null],
    and the handler is the [askCerebro] of the sections above. *)
Lemma askCerebro_complete_page (w : World) :
  (forall id, absent id = false) ->
  askCerebro_any_page backend absent w = askCerebro backend w.
Proof.
  intros H. unfold askCerebro_any_page, askCerebro, lookup.
  rewrite !H. reflexivity.
Qed.

(** X10.  Without the input field or without the status element the
    call is rejected with a [TypeError] before anything happens: no
    request, no change to the page, nothing on the console. *)
Theorem missing_input_or_status (w : World) :
  absent el_query = true \/ absent el_status = true ->
  exists message,
    askCerebro_any_page backend absent w = (Rejected (TypeError message), w).
Proof.
  intros H. destruct w as [d l].
  destruct (absent el_query) eqn:Hq.
  - eexists. exec_any. reflexivity.
  - destruct H as [H|Hs]; [discriminate|].
    explore_any; eexists; reflexivity.
Qed.

(** X11.  Without the result region a query that is not blank gets as
    far as [Thinking...]: the status is set, then the call is rejected
    with a [TypeError], outside the [try], and no request is sent. *)
Theorem missing_response_box (w : World) :
  absent el_query = false -> absent el_status = false ->
  absent el_response = true ->
  trim (value (query (document w))) <> [] ->
  exists message,
    askCerebro_any_page backend absent w
    = (Rejected (TypeError message),
       {| document := say (lit "Thinking...") (document w);
          log := log w |}).
Proof.
  intros Hq Hs Hr H. destruct w as [d l]; cbn [document log] in *.
  destruct (trim (value (query d))) as [|c q] eqn:E; [congruence|].
  eexists. exec_any. reflexivity.
Qed.


(** X12.  With the input field, the status element and the result
    region in place the call is never rejected, whichever of the other
    five elements are missing and whatever the backend does. *)
Theorem never_rejects_with_three_elements (w : World) :
  absent el_query = false -> absent el_status = false ->
  absent el_response = false ->
  forall e, fst (askCerebro_any_page backend absent w) <> Rejected e.
Proof.
  intros Hq Hs Hr e. destruct w as [d l].
  explore_any; cbn [fst]; discriminate.
Qed.

(** X13.  If one of the five answer elements is missing, a query that
    is not blank is still sent, once, but the result region is never
    revealed; and a body whose [error] is falsy ends in the connection
    failure, however complete it is. *)
Theorem missing_result_element_never_reveals (w : World)
    (id : ElementId) :
  absent el_query = false -> absent el_status = false ->
  absent el_response = false ->
  In id result_fields -> absent id = true ->
  trim (value (query (document w))) <> [] ->
  let text := trim (value (query (document w))) in
  let w' := snd (askCerebro_any_page backend absent w) in
  hidden (document w') = true /\
  requests (log w') = requests (log w) ++ [the_request text] /\
  (forall res data err,
     backend (the_request text) = Fulfilled res ->
     json res = Fulfilled data ->
     Get data (lit "error") = Normal err -> ToBoolean err = false ->
     fst (askCerebro_any_page backend absent w) = Fulfilled tt /\
     innerText (status (document w'))
     = warning_sign ++ lit " Failed to connect to Cerebro backend.").
Proof.
  intros Hq Hs Hr Hid Ha H. destruct w as [d l]; cbn [document log] in *.
  destruct (trim (value (query d))) as [|c q] eqn:E; [congruence|].
  unfold the_request.
  cbn [result_fields In] in Hid.
  cbv zeta.
  destruct (askCerebro_any_page backend absent {| document := d; log := l |})
    as [p w'] eqn:Hrun.
  revert Hrun.
  repeat (destruct Hid as [<-|Hid]; [|]); try contradiction;
    explore_any; intros [= <- <-]; cbn [fst snd document log];
    (split; [apply contains_add|]);
    (split; [rewrite !requests_app; cbn [requests]; rewrite ?app_nil_r;
             reflexivity|]);
    intros res data err Hb Hj He Hf;
    first [ congruence | split; reflexivity ].
Qed.

End AnyPageFacts.

(* ===================================================================== *)
(** * Concrete runs *)
(* ===================================================================== *)

Lemma submitted_text :
  trim (value (query (document submitted))) = lit "what is rust?".
Proof. reflexivity. Defined.

Lemma submitted_not_blank :
  trim (value (query (document submitted))) <> [].
Proof. rewrite submitted_text. discriminate. Defined.

Lemma one_post_per_submission_witness :
  trim (value (query (document submitted))) <> [] /\
  requests (log (snd (askCerebro (answers answer) submitted)))
  = [ {| url := lit "http://localhost:5000/ask";
         init :=
           {| method := lit "POST";
              headers := [(lit "Content-Type", lit "application/json")];
              body := [0x7B; 0x22] ++ lit "query" ++ [0x22; 0x3A; 0x22]
                        ++ lit "what is rust?" ++ [0x22; 0x7D] |} |} ].
Proof.
  split; [exact submitted_not_blank|].
  exact (proj2 (one_post_per_submission (answers answer) submitted
                  submitted_not_blank)).
Defined.

Lemma blank_query_is_refused_witness :
  forallb isTrimmed (value (query (document blank_after_answer))) = true /\
  exists w',
    askCerebro (answers answer) blank_after_answer = (Fulfilled tt, w') /\
    log w' = [] /\
    innerText (status (document w')) = lit "Please enter a query.".
Proof.
  split; [reflexivity|].
  exact (blank_query_is_refused (answers answer) blank_after_answer
           eq_refl).
Defined.

Lemma answer_is_rendered_witness :
  trim (value (query (document submitted))) <> [] /\
  Get answer (lit "error") = Normal VUndefined /\
  ToBoolean VUndefined = false /\
  exists w',
    askCerebro (answers answer) submitted = (Fulfilled tt, w') /\
    innerText (output (document w')) = lit "42" /\
    innerText (mode (document w')) = lit "FAST" /\
    innerText (domain (document w')) = lit "math" /\
    innerText (sources (document w')) = lit "a, b" /\
    innerText (duration (document w')) = lit "0.12" /\
    hidden (document w') = false /\
    innerText (status (document w')) = [].
Proof.
  split; [exact submitted_not_blank|].
  split; [reflexivity|]. split; [reflexivity|].
  exact (answer_is_rendered (answers answer) submitted
           {| json := Fulfilled answer |} answer VUndefined
           (lit "42") (lit "fast") (lit "math") [lit "a"; lit "b"]
           (lit "0.12" : @Num text_runtime)
           submitted_not_blank eq_refl eq_refl eq_refl eq_refl
           eq_refl eq_refl eq_refl eq_refl eq_refl).
Defined.

Lemma backend_error_is_shown_witness :
  trim (value (query (document submitted))) <> [] /\
  Get bad_domain (lit "error") = Normal (VString (lit "bad domain")) /\
  ToBoolean (VString (lit "bad domain")) = true /\
  exists w',
    askCerebro (answers bad_domain) submitted = (Fulfilled tt, w') /\
    hidden (document w') = true /\
    innerText (status (document w'))
    = warning_sign ++ lit " Error: bad domain".
Proof.
  split; [exact submitted_not_blank|].
  split; [reflexivity|]. split; [reflexivity|].
  destruct (backend_error_is_shown (answers bad_domain) submitted
              {| json := Fulfilled bad_domain |} bad_domain
              (VString (lit "bad domain"))
              submitted_not_blank eq_refl eq_refl eq_refl eq_refl)
    as (w' & Hrun & Hhidden & Hstatus & _).
  exists w'. split; [exact Hrun|]. split; [exact Hhidden|].
  exact (Hstatus (lit "bad domain") eq_refl).
Defined.

Lemma transport_failure_is_reported_witness :
  trim (value (query (document submitted))) <> [] /\
  transport_failure (refuses (TypeError "Failed to fetch"))
    (the_request (lit "what is rust?")) (TypeError "Failed to fetch") /\
  transport_failure (garbles (SyntaxError "Unexpected token"))
    (the_request (lit "what is rust?")) (SyntaxError "Unexpected token") /\
  (exists w' before,
    askCerebro (refuses (TypeError "Failed to fetch")) submitted
    = (Fulfilled tt, w') /\
    innerText (status (document w'))
    = warning_sign ++ lit " Failed to connect to Cerebro backend." /\
    hidden (document w') = true /\
    log w' = before ++ [Logged (TypeError "Failed to fetch")] /\
    requests (log w') = [the_request (lit "what is rust?")]) /\
  (exists w' before,
    askCerebro (garbles (SyntaxError "Unexpected token")) submitted
    = (Fulfilled tt, w') /\
    innerText (status (document w'))
    = warning_sign ++ lit " Failed to connect to Cerebro backend." /\
    hidden (document w') = true /\
    log w' = before ++ [Logged (SyntaxError "Unexpected token")] /\
    requests (log w') = [the_request (lit "what is rust?")]).
Proof.
  assert (H1 : transport_failure (refuses (TypeError "Failed to fetch"))
                 (the_request (lit "what is rust?"))
                 (TypeError "Failed to fetch"))
    by (left; reflexivity).
  assert (H2 : transport_failure (garbles (SyntaxError "Unexpected token"))
                 (the_request (lit "what is rust?"))
                 (SyntaxError "Unexpected token"))
    by (right; eexists; split; reflexivity).
  split; [exact submitted_not_blank|].
  split; [exact H1|]. split; [exact H2|]. split.
  - exact (transport_failure_is_reported
             (refuses (TypeError "Failed to fetch")) submitted
             (TypeError "Failed to fetch") submitted_not_blank H1).
  - exact (transport_failure_is_reported
             (garbles (SyntaxError "Unexpected token")) submitted
             (SyntaxError "Unexpected token") submitted_not_blank H2).
Defined.

Lemma present_error_counts_when_truthy_witness :
  trim (value (query (document submitted))) <> [] /\
  own_property [(lit "error", VString (lit "bad domain"))] (lit "error")
  = Some (VString (lit "bad domain")) /\
  exists w',
    askCerebro (answers bad_domain) submitted = (Fulfilled tt, w') /\
    hidden (document w') = true /\
    innerText (status (document w'))
    = warning_sign ++ lit " Error: bad domain".
Proof.
  split; [exact submitted_not_blank|]. split; [reflexivity|].
  destruct (present_error_counts_when_truthy (answers bad_domain) submitted
              {| json := Fulfilled bad_domain |}
              [(lit "error", VString (lit "bad domain"))]
              (VString (lit "bad domain"))
              submitted_not_blank eq_refl eq_refl eq_refl)
    as (w' & Hrun & Htruthy & _).
  exists w'. split; [exact Hrun|].
  destruct (Htruthy eq_refl) as (Hhidden & _ & _ & Hstring & _).
  split; [exact Hhidden|exact (Hstring (lit "bad domain") eq_refl)].
Defined.

Lemma absent_fields_witness :
  trim (value (query (document submitted))) <> [] /\
  Get answer_with_mode_and_sources_only (lit "response") = Normal VUndefined /\
  Get answer_without_mode (lit "mode") = Normal VUndefined /\
  (exists w',
     askCerebro (answers answer_with_mode_and_sources_only) submitted
     = (Fulfilled tt, w') /\
     hidden (document w') = false /\
     innerText (status (document w')) = [] /\
     innerText (output (document w')) = lit "undefined" /\
     innerText (mode (document w')) = lit "FAST" /\
     innerText (domain (document w')) = lit "undefined" /\
     innerText (sources (document w')) = lit "a, b" /\
     innerText (duration (document w')) = lit "undefined") /\
  (exists w',
     askCerebro (answers answer_without_mode) submitted
     = (Fulfilled tt, w') /\
     hidden (document w') = true /\
     innerText (status (document w'))
     = warning_sign ++ lit " Failed to connect to Cerebro backend.").
Proof.
  split; [exact submitted_not_blank|].
  split; [reflexivity|]. split; [reflexivity|]. split.
  - exact (proj1 (absent_fields
                    (answers answer_with_mode_and_sources_only) submitted
                    {| json := Fulfilled answer_with_mode_and_sources_only |}
                    answer_with_mode_and_sources_only VUndefined
                    submitted_not_blank eq_refl eq_refl eq_refl eq_refl)
             None None None (lit "fast") [lit "a"; lit "b"]
             eq_refl eq_refl eq_refl eq_refl eq_refl).
  - exact (proj2 (absent_fields (answers answer_without_mode) submitted
                    {| json := Fulfilled answer_without_mode |}
                    answer_without_mode VUndefined
                    submitted_not_blank eq_refl eq_refl eq_refl eq_refl)
             (or_introl eq_refl)).
Defined.

Lemma page_while_waiting_witness :
  trim (value (query (document submitted))) <> [] /\
  exists request d rest,
    log (snd (askCerebro (fun _ => Pending) submitted))
    = Fetched request :: Suspended d :: rest /\
    innerText (status d) = lit "Thinking..." /\
    hidden d = true /\
    (forall d', In (Suspended d') rest -> d' = d).
Proof.
  split; [exact submitted_not_blank|].
  exact (page_while_waiting (fun _ => Pending) submitted
           submitted_not_blank).
Defined.

Lemma failure_paths_keep_the_result_witness :
  trim (value (query (document blank_after_answer))) = [] /\
  trim (value (query (document submitted))) <> [] /\
  ToBoolean (VString (lit "bad domain")) = true /\
  innerText (output
    (document (snd (askCerebro (answers answer) blank_after_answer))))
  = lit "42" /\
  hidden (document (snd (askCerebro (answers answer) blank_after_answer)))
  = false /\
  innerText (status
    (document (snd (askCerebro (answers answer) blank_after_answer))))
  = lit "Please enter a query." /\
  getElementById
    (document (snd (askCerebro (answers bad_domain) submitted))) el_output
  = getElementById (document submitted) el_output.
Proof.
  pose proof (failure_paths_keep_the_result (answers answer)
                blank_after_answer) as Hblank.
  pose proof (failure_paths_keep_the_result (answers bad_domain)
                submitted) as Herror.
  cbv zeta in Hblank, Herror.
  destruct Hblank as (Hblank & _). destruct Herror as (_ & Herror).
  destruct (Hblank eq_refl) as (Hfields & _ & Hhidden & Hstatus).
  split; [reflexivity|]. split; [exact submitted_not_blank|].
  split; [reflexivity|]. split.
  - exact (f_equal innerText (Hfields el_output (or_introl eq_refl))).
  - split; [exact Hhidden|]. split; [exact Hstatus|].
    exact (Herror {| json := Fulfilled bad_domain |} bad_domain
             (VString (lit "bad domain")) submitted_not_blank
             eq_refl eq_refl eq_refl eq_refl el_output (or_introl eq_refl)).
Defined.

(** The status after a failed request is not the bare text: it starts
    with the warning sign. *)
Lemma transport_failure_message_counterexample :
  transport_failure (refuses (TypeError "Failed to fetch"))
    (the_request (lit "what is rust?")) (TypeError "Failed to fetch") /\
  innerText (status (document
    (snd (askCerebro (refuses (TypeError "Failed to fetch")) submitted))))
  <> lit "Failed to connect to Cerebro backend.".
Proof.
  split; [left; reflexivity|]. cbv. discriminate.
Qed.

(** An [error] that is present but empty does not stop the answer from
    being rendered. *)
Lemma empty_error_counterexample :
  own_property
    ((lit "error", VString []) ::
     (lit "mode", VString (lit "fast")) :: answer_fields) (lit "error")
  = Some (VString []) /\
  askCerebro (answers answer_with_empty_error) submitted
  = askCerebro (answers answer) submitted /\
  hidden (document
    (snd (askCerebro (answers answer_with_empty_error) submitted))) = false /\
  innerText (status (document
    (snd (askCerebro (answers answer_with_empty_error) submitted)))) = [] /\
  innerText (output (document
    (snd (askCerebro (answers answer_with_empty_error) submitted))))
  = lit "42".
Proof. repeat split; reflexivity. Qed.

(** Without [mode] the render pass does not complete: [response] has
    been written, then the call of [toUpperCase] throws. *)
Lemma absent_mode_counterexample :
  let run := askCerebro (answers answer_without_mode) submitted in
  Get answer_without_mode (lit "error") = Normal VUndefined /\
  Get answer_without_mode (lit "mode") = Normal VUndefined /\
  fst run = Fulfilled tt /\
  hidden (document (snd run)) = true /\
  innerText (status (document (snd run)))
  = warning_sign ++ lit " Failed to connect to Cerebro backend." /\
  innerText (output (document (snd run))) = lit "42" /\
  innerText (mode (document (snd run))) = [] /\
  exists message,
    last (log (snd run)) (Suspended fresh_page) = Logged (TypeError message).
Proof.
  cbv zeta. repeat (split; [reflexivity|]).
  eexists. vm_compute. reflexivity.
Qed.

(** While the request is in flight the status is not [Thinking]
    followed by U+2026 HORIZONTAL ELLIPSIS. *)
Lemma thinking_ellipsis_counterexample :
  trim (value (query (document submitted))) <> [] /\
  exists request d rest,
    log (snd (askCerebro (answers answer) submitted))
    = Fetched request :: Suspended d :: rest /\
    innerText (status d) <> lit "Thinking" ++ [0x2026].
Proof.
  split; [exact submitted_not_blank|].
  do 3 eexists. split; [reflexivity|]. cbv. discriminate.
Qed.

(* ===================================================================== *)
(** * Concrete runs for the further properties *)
(* ===================================================================== *)

Lemma hung_request_shows_thinking_witness :
  trim (value (query (document submitted))) <> [] /\
  hangs silent (the_request (lit "what is rust?")) /\
  exists w',
    askCerebro silent submitted = (Pending, w') /\
    document w' = thinking (document submitted) /\
    innerText (status (document w')) = lit "Thinking..." /\
    hidden (document w') = true /\
    requests (log w') = [the_request (lit "what is rust?")] /\
    logged (log w') = [].
Proof.
  assert (H : hangs silent (the_request (lit "what is rust?")))
    by (left; reflexivity).
  split; [exact submitted_not_blank|]. split; [exact H|].
  exact (hung_request_shows_thinking silent submitted
           submitted_not_blank H).
Defined.

Lemma visible_result_is_current_witness :
  trim (value (query (document submitted))) <> [] /\
  hidden (document (snd (askCerebro (answers answer) submitted))) = false /\
  exists res data err,
    answers answer (the_request (lit "what is rust?")) = Fulfilled res /\
    json res = Fulfilled data /\
    Get data (lit "error") = Normal err /\ ToBoolean err = false /\
    renders data (lit "42") (lit "FAST") (lit "math") (lit "a, b")
      (lit "0.12") /\
    innerText (status
      (document (snd (askCerebro (answers answer) submitted)))) = [] /\
    fst (askCerebro (answers answer) submitted) = Fulfilled tt.
Proof.
  split; [exact submitted_not_blank|]. split; [reflexivity|].
  exact (visible_result_is_current (answers answer) submitted
           submitted_not_blank eq_refl).
Defined.

Lemma render_stops_where_it_throws_witness :
  trim (value (query (document submitted))) <> [] /\
  Get answer_with_numeric_mode (lit "mode")
  = Normal (VNumber (lit "1" : Num)) /\
  call_toUpperCase (VNumber (lit "1" : Num))
  = Throw (TypeError "toUpperCase is not a function") /\
  exists w' before,
    askCerebro (answers answer_with_numeric_mode) submitted
    = (Fulfilled tt, w') /\
    innerText (output (document w')) = lit "42" /\
    (forall id, In id [el_mode; el_domain; el_sources; el_duration] ->
       getElementById (document w') id
       = getElementById (document submitted) id) /\
    hidden (document w') = true /\
    innerText (status (document w'))
    = warning_sign ++ lit " Failed to connect to Cerebro backend." /\
    log w' = before ++ [Logged (TypeError "toUpperCase is not a function")].
Proof.
  split; [exact submitted_not_blank|].
  split; [reflexivity|]. split; [reflexivity|].
  exact (render_stops_where_it_throws (answers answer_with_numeric_mode)
           submitted {| json := Fulfilled answer_with_numeric_mode |}
           answer_with_numeric_mode VUndefined (VString (lit "42"))
           (VNumber (lit "1" : Num)) (lit "42")
           (TypeError "toUpperCase is not a function")
           submitted_not_blank eq_refl eq_refl eq_refl eq_refl
           eq_refl eq_refl eq_refl eq_refl).
Defined.

Lemma body_that_is_no_object_witness :
  trim (value (query (document submitted))) <> [] /\
  not_an_object (VArray []) = true /\
  (exists w' message,
     askCerebro (answers VNull) submitted = (Fulfilled tt, w') /\
     innerText (status (document w'))
     = warning_sign ++ lit " Failed to connect to Cerebro backend." /\
     logged (log w') = [TypeError message] /\
     output (document w') = output (document submitted)) /\
  (exists w' message,
     askCerebro (answers (VArray [])) submitted = (Fulfilled tt, w') /\
     innerText (status (document w'))
     = warning_sign ++ lit " Failed to connect to Cerebro backend." /\
     logged (log w') = [TypeError message] /\
     innerText (output (document w')) = lit "undefined").
Proof.
  split; [exact submitted_not_blank|]. split; [reflexivity|]. split.
  - destruct (body_that_is_no_object (answers VNull) submitted
                {| json := Fulfilled VNull |} VNull
                submitted_not_blank eq_refl eq_refl (or_introl eq_refl))
      as (w' & message & Hrun & Hstatus & _ & Hlog & _ & Hnull & _).
    exists w', message. split; [exact Hrun|]. split; [exact Hstatus|].
    split; [exact Hlog|exact (Hnull eq_refl)].
  - destruct (body_that_is_no_object (answers (VArray [])) submitted
                {| json := Fulfilled (VArray []) |} (VArray [])
                submitted_not_blank eq_refl eq_refl (or_intror eq_refl))
      as (w' & message & Hrun & Hstatus & _ & Hlog & _ & _ & Harray).
    exists w', message. split; [exact Hrun|]. split; [exact Hstatus|].
    split; [exact Hlog|exact (Harray eq_refl)].
Defined.

Lemma only_six_properties_matter_witness :
  trim (value (query (document submitted))) <> [] /\
  Get answer (lit "error") = Normal VUndefined /\
  Get answer_with_more (lit "error") = Normal VNull /\
  askCerebro (answers answer) submitted
  = askCerebro (answers answer_with_more) submitted.
Proof.
  split; [exact submitted_not_blank|].
  split; [reflexivity|]. split; [reflexivity|].
  refine (only_six_properties_matter (answers answer)
            (answers answer_with_more) submitted
            {| json := Fulfilled answer |}
            {| json := Fulfilled answer_with_more |}
            answer answer_with_more VUndefined VNull
            submitted_not_blank eq_refl eq_refl eq_refl eq_refl
            eq_refl eq_refl _).
  right. split; [reflexivity|]. split; [reflexivity|].
  intros key Hkey; cbn [In] in Hkey.
  repeat (destruct Hkey as [<-|Hkey]; [reflexivity|]). contradiction.
Defined.

Lemma submitted_again_not_blank :
  trim (value (query (document submitted_again))) <> [].
Proof. discriminate. Defined.

Lemma request_determines_query_witness :
  trim (value (query (document submitted))) <> [] /\
  trim (value (query (document submitted_again))) <> [] /\
  requests (log (snd (askCerebro silent submitted)))
  = requests (log (snd (askCerebro silent submitted_again))) /\
  trim (value (query (document submitted)))
  = trim (value (query (document submitted_again))).
Proof.
  split; [exact submitted_not_blank|].
  split; [exact submitted_again_not_blank|]. split; [reflexivity|].
  exact (request_determines_query silent submitted submitted_again
           submitted_not_blank submitted_again_not_blank eq_refl eq_refl).
Defined.

Lemma missing_input_or_status_witness :
  without el_status el_status = true /\
  (exists message,
     askCerebro_any_page (answers answer) (without el_status) submitted
     = (Rejected (TypeError message), submitted)) /\
  (exists message,
     askCerebro_any_page (answers answer) (without el_query)
       blank_after_answer
     = (Rejected (TypeError message), blank_after_answer)).
Proof.
  split; [reflexivity|]. split.
  - exact (missing_input_or_status (answers answer) (without el_status)
             submitted (or_intror eq_refl)).
  - exact (missing_input_or_status (answers answer) (without el_query)
             blank_after_answer (or_introl eq_refl)).
Defined.

Lemma missing_response_box_witness :
  without el_response el_response = true /\
  trim (value (query (document submitted))) <> [] /\
  exists message,
    askCerebro_any_page (answers answer) (without el_response) submitted
    = (Rejected (TypeError message),
       {| document := say (lit "Thinking...") (document submitted);
          log := [] |}).
Proof.
  split; [reflexivity|]. split; [exact submitted_not_blank|].
  exact (missing_response_box (answers answer) (without el_response)
           submitted eq_refl eq_refl eq_refl submitted_not_blank).
Defined.

Lemma never_rejects_with_three_elements_witness :
  without el_sources el_query = false /\
  without el_sources el_status = false /\
  without el_sources el_response = false /\
  fst (askCerebro_any_page (answers answer) (without el_sources) submitted)
  <> Rejected (TypeError "Cannot read or set properties of null").
Proof.
  repeat (split; [reflexivity|]).
  exact (never_rejects_with_three_elements (answers answer)
           (without el_sources) submitted eq_refl eq_refl eq_refl
           (TypeError "Cannot read or set properties of null")).
Defined.

Lemma missing_result_element_never_reveals_witness :
  In el_sources result_fields /\
  without el_sources el_sources = true /\
  trim (value (query (document submitted))) <> [] /\
  ToBoolean VUndefined = false /\
  hidden (document
    (snd (askCerebro_any_page (answers answer) (without el_sources)
            submitted))) = true /\
  requests (log
    (snd (askCerebro_any_page (answers answer) (without el_sources)
            submitted))) = [the_request (lit "what is rust?")] /\
  fst (askCerebro_any_page (answers answer) (without el_sources) submitted)
  = Fulfilled tt /\
  innerText (status (document
    (snd (askCerebro_any_page (answers answer) (without el_sources)
            submitted))))
  = warning_sign ++ lit " Failed to connect to Cerebro backend.".
Proof.
  assert (Hin : In el_sources result_fields)
    by (cbn [result_fields In]; tauto).
  destruct (missing_result_element_never_reveals (answers answer)
              (without el_sources) submitted el_sources
              eq_refl eq_refl eq_refl Hin eq_refl submitted_not_blank)
    as (Hhidden & Hrequests & Hbody).
  split; [exact Hin|]. split; [reflexivity|].
  split; [exact submitted_not_blank|]. split; [reflexivity|].
  split; [exact Hhidden|]. split; [exact Hrequests|].
  exact (Hbody {| json := Fulfilled answer |} answer VUndefined
           eq_refl eq_refl eq_refl eq_refl).
Defined.

